(** * openrouteservice.geocode: the Pelias request builders

    A shallow embedding of [openrouteservice/geocode.py] and the properties
    of its three operations, [pelias_search], [pelias_structured] and
    [pelias_reverse].

    Python values are a small inductive type, exceptions are the [Raise]
    case of [result], and the one effect of the module, the call to
    [client.request], is recorded in a log of calls that a state and error
    monad threads through each function. *)

From Stdlib Require Import ZArith String Ascii List Bool Lia.
From stdpp Require Import base tactics option list strings pretty gmap fin_maps.

Set Warnings "-register-all".
Open Scope string_scope.
Open Scope list_scope.
Open Scope Z_scope.

(** ** Python values *)

(** A float is represented by the finite decimal that denotes it,
    [PFloat m e] being [m * 10^-e]; infinities and NaN are not
    represented. A dict is the list of its items, whose keys are
    distinct. *)
Inductive pyval : Type :=
| PNone
| PBool (b : bool)
| PInt (n : Z)
| PFloat (m : Z) (e : nat)
| PStr (s : string)
| PList (xs : list pyval)
| PTuple (xs : list pyval)
| PDict (kvs : list (pyval * pyval)).

Inductive exn : Type :=
| TypeError (msg : string)
| ValueError (msg : string)
| IndexError (msg : string)
| KeyError (msg : string)
| OtherError (name msg : string).

Inductive result (A : Type) : Type :=
| Ok (x : A)
| Raise (e : exn).
Arguments Ok {A} x.
Arguments Raise {A} e.

#[export] Instance result_ret : MRet result := @Ok.
#[export] Instance result_bind : MBind result := fun A B f r =>
  match r with
  | Ok x => f x
  | Raise e => Raise e
  end.
#[export] Instance result_fmap : FMap result := fun A B f r =>
  match r with
  | Ok x => Ok (f x)
  | Raise e => Raise e
  end.

Definition is_ok {A} (r : result A) : bool :=
  match r with Ok _ => true | Raise _ => false end.

(** Truth value of an object, as tested by [if x:]. *)
Definition truthy (v : pyval) : bool :=
  match v with
  | PNone => false
  | PBool b => b
  | PInt n => negb (n =? 0)
  | PFloat m _ => negb (m =? 0)
  | PStr s => negb (String.eqb s "")
  | PList xs | PTuple xs => negb (Nat.eqb (length xs) 0)
  | PDict kvs => negb (Nat.eqb (length kvs) 0)
  end.

(** [isinstance(v, str)] *)
Definition isinstance_str (v : pyval) : bool :=
  match v with PStr _ => true | _ => false end.

(** Whether the dict key [k] equals the integer [i] ([0 == 0.0 == False]). *)
Definition key_is_int (k : pyval) (i : Z) : bool :=
  match k with
  | PInt n => n =? i
  | PBool b => (if b then 1 else 0) =? i
  | PFloat m e => m =? i * 10 ^ Z.of_nat e
  | _ => false
  end.

Fixpoint dict_get (kvs : list (pyval * pyval)) (i : Z) : option pyval :=
  match kvs with
  | [] => None
  | (k, v) :: kvs => if key_is_int k i then Some v else dict_get kvs i
  end.

Definition string_get (s : string) (i : nat) : option pyval :=
  (fun c => PStr (String c "")) <$> String.get i s.

(** [v[i]] for a literal index [i >= 0], the only subscripts of the module. *)
Definition getitem (v : pyval) (i : nat) : result pyval :=
  match v with
  | PList xs | PTuple xs =>
      match xs !! i with
      | Some x => Ok x
      | None => Raise (IndexError "index out of range")
      end
  | PStr s =>
      match string_get s i with
      | Some x => Ok x
      | None => Raise (IndexError "string index out of range")
      end
  | PDict kvs =>
      match dict_get kvs (Z.of_nat i) with
      | Some x => Ok x
      | None => Raise (KeyError (pretty (Z.of_nat i)))
      end
  | _ => Raise (TypeError "object is not subscriptable")
  end.

(** The elements [for x in v] ranges over. *)
Definition py_iter (v : pyval) : result (list pyval) :=
  match v with
  | PList xs | PTuple xs => Ok xs
  | PStr s => Ok ((fun c => PStr (String c "")) <$> list_ascii_of_string s)
  | PDict kvs => Ok (kvs.*1)
  | _ => Raise (TypeError "object is not iterable")
  end.

(** [x in l] for a list [l] of strings. *)
Definition py_in (x : pyval) (l : list string) : bool :=
  match x with
  | PStr s => existsb (String.eqb s) l
  | _ => false
  end.

(** [sep.join(l)] *)
Fixpoint join (sep : string) (l : list string) : string :=
  match l with
  | [] => ""
  | [s] => s
  | s :: l => s +:+ sep +:+ join sep l
  end.

(** [str(l)] for a list [l] of strings, as [format] inserts it. *)
Definition repr_str_list (l : list string) : string :=
  "[" +:+ join ", " ((fun s => "'" +:+ s +:+ "'") <$> l) +:+ "]".

(** [fmt.format(arg)]: the first replacement field [{}] receives [arg];
    an argument without a field is dropped. *)
Fixpoint str_format (fmt arg : string) : string :=
  match fmt with
  | "" => ""
  | String "{" (String "}" rest) => arg +:+ rest
  | String c rest => String c (str_format rest arg)
  end.

(** ** The client and the monad of the operations *)

(** One call [client.request(path, params, dry_run=dry_run)]. *)
Record call : Type := Call {
  call_path : string;
  call_params : gmap string pyval;
  call_dry_run : pyval
}.

(** The client handle is opaque: what [request] answers (a response, or
    an exception of its own) may depend on the calls made so far. *)
Record Client : Type := {
  client_request : list call -> call -> result pyval
}.

(** A computation receives the log of the calls made so far and returns
    its outcome with the log it leaves behind. *)
Definition M (A : Type) : Type := list call -> result A * list call.

#[export] Instance M_ret : MRet M := fun A x log => (Ok x, log).
#[export] Instance M_bind : MBind M := fun A B f m log =>
  match m log with
  | (Ok x, log') => f x log'
  | (Raise e, log') => (Raise e, log')
  end.

(** A statement that cannot reach the client. *)
Definition lift {A} (r : result A) : M A := fun log => (r, log).

Definition request (client : Client) (path : string)
    (params : gmap string pyval) (dry_run : pyval) : M pyval :=
  fun log =>
    let c := Call path params dry_run in
    (client_request client log c, log ++ [c]).

(** ** What the module takes from its environment

    Two behaviours are decided outside [geocode.py] and are left open: the
    builtin [str], and what the float formatter of [convert] does with an
    argument that is not a number, about which its contract says nothing.
    The operations and their properties are stated for every such
    environment. *)
Class Runtime : Type := {
  py_str : pyval -> string;
  format_other : pyval -> result string
}.

Section Definitions.

Context `{rt : Runtime}.

(** ** The [convert] helpers *)

Fixpoint dec_normalise (m : Z) (e : nat) : Z * nat :=
  match e with
  | O => (m, O)
  | S e' => if m mod 10 =? 0 then dec_normalise (m / 10) e' else (m, e)
  end.

Fixpoint zeros (n : nat) : string :=
  match n with O => "" | S n => String "0" (zeros n) end.

Definition format_decimal (m : Z) (e : nat) : string :=
  let '(m, e) := dec_normalise m e in
  let n := Z.abs m in
  let int_part := pretty (n / 10 ^ Z.of_nat e) in
  let frac := pretty (n mod 10 ^ Z.of_nat e) in
  (if m <? 0 then "-" else "") +:+ int_part +:+
  match e with
  | O => ""
  | _ => "." +:+ zeros (e - String.length frac) +:+ frac
  end.

(** Modelled from the spec: [convert._format_float], whose module is not
    part of the sources. The float formatter maps a number to its canonical
    decimal string (exact decimal form, no exponent, no trailing zeros);
    [True] and [False] are the numbers 1 and 0. The contract covers numbers
    only: any other argument is left to the environment. *)
Definition _format_float (arg : pyval) : result string :=
  match arg with
  | PInt n => Ok (pretty n)
  | PBool b => Ok (if b then "1" else "0")
  | PFloat m e => Ok (format_decimal m e)
  | _ => format_other arg
  end.

(** Modelled from the spec: [convert._is_list], the sequence-type predicate
    used for input validation; a string is iterable but is not a sequence
    for it, and neither is a dict. *)
Definition _is_list (arg : pyval) : bool :=
  match arg with
  | PList _ | PTuple _ => true
  | _ => false
  end.

Definition as_str (v : pyval) : result string :=
  match v with
  | PStr s => Ok s
  | _ => Raise (TypeError "sequence item: expected str instance")
  end.

Fixpoint all_str (xs : list pyval) : result (list string) :=
  match xs with
  | [] => Ok []
  | x :: xs => s ← as_str x; l ← all_str xs; Ok (s :: l)
  end.

(** Modelled from the spec: [convert._comma_list], the comma-list joiner
    (sequence of strings to a single comma-delimited string). *)
Definition _comma_list (arg : pyval) : result string :=
  match arg with
  | PList xs | PTuple xs => l ← all_str xs; Ok (join "," l)
  | _ => Raise (TypeError "Expected a list or tuple")
  end.

(** ** geocode.py *)

Definition valid_layers : list string :=
  ["venue"; "address"; "street"; "neighbourhood"; "borough"; "localadmin";
   "locality"; "county"; "macrocounty"; "region"; "macroregion"; "county";
   "coarse"].

Definition valid_sources : list string := ["osm"; "oa"; "wof"; "gn"].

(** The horizontal tab that ends the three rectangle keys of
    [pelias_search] (lines 112 to 121). *)
Definition TAB : string := String (ascii_of_nat 9) "".

Record search_args : Type := SearchArgs {
  s_text : pyval;
  s_focus_point : pyval;
  s_rect_min_x : pyval;
  s_rect_min_y : pyval;
  s_rect_max_x : pyval;
  s_rect_max_y : pyval;
  s_circle_point : pyval;
  s_circle_radius : pyval;
  s_sources : pyval;
  s_layers : pyval;
  s_country : pyval;
  s_size : pyval;
  s_dry_run : pyval
}.

(** [if c: raise e] *)
Definition raise_if (c : bool) (e : exn) : result unit :=
  if c then Raise e else Ok tt.

Definition pelias_search (client : Client) (a : search_args) : M pyval :=
  let params : gmap string pyval := {[ "text" := s_text a ]} in
  params ← lift (
    if truthy (s_focus_point a) then
      lon ← getitem (s_focus_point a) 0 ≫= _format_float;
      let params := <[ "focus.point.lon" := PStr lon ]> params in
      lat ← getitem (s_focus_point a) 1 ≫= _format_float;
      Ok (<[ "focus.point.lat" := PStr lat ]> params)
    else Ok params);
  params ← lift (
    if truthy (s_rect_min_x a) then
      v ← _format_float (s_rect_min_x a);
      Ok (<[ "boundary.rect.min_lon" +:+ TAB := PStr v ]> params)
    else Ok params);
  params ← lift (
    if truthy (s_rect_min_y a) then
      v ← _format_float (s_rect_min_y a);
      Ok (<[ "boundary.rect.min_lat" +:+ TAB := PStr v ]> params)
    else Ok params);
  params ← lift (
    if truthy (s_rect_max_x a) then
      v ← _format_float (s_rect_max_x a);
      Ok (<[ "boundary.rect.max_lon" +:+ TAB := PStr v ]> params)
    else Ok params);
  params ← lift (
    if truthy (s_rect_max_y a) then
      v ← _format_float (s_rect_max_y a);
      Ok (<[ "boundary.rect.max_lon" +:+ TAB := PStr v ]> params)
    else Ok params);
  params ← lift (
    if truthy (s_circle_point a) then
      lon ← getitem (s_circle_point a) 0 ≫= _format_float;
      let params := <[ "boundary.circle.lon" := PStr lon ]> params in
      lat ← getitem (s_circle_point a) 1 ≫= _format_float;
      Ok (<[ "boundary.circle.lat" := PStr lat ]> params)
    else Ok params);
  params ← lift (
    if truthy (s_circle_radius a) then
      Ok (<[ "boundary.circle.radius" := s_circle_radius a ]> params)
    else Ok params);
  params ← lift (
    if truthy (s_sources a) then
      raise_if (negb (_is_list (s_sources a)))
        (TypeError "Data source invalid.");;
      xs ← py_iter (s_sources a);
      raise_if (negb (forallb (fun source => py_in source valid_sources) xs))
        (ValueError (str_format "Source must be one or more of {}"
                       (repr_str_list valid_sources)));;
      v ← _comma_list (s_sources a);
      Ok (<[ "sources" := PStr v ]> params)
    else Ok params);
  params ← lift (
    if truthy (s_layers a) then
      raise_if (negb (_is_list (s_layers a)))
        (TypeError "Invalid layer type for geocoding.");;
      xs ← py_iter (s_layers a);
      raise_if (negb (forallb (fun layer => py_in layer valid_layers) xs))
        (ValueError (str_format "Source must be one or more of "
                       (repr_str_list valid_layers)));;
      v ← _comma_list (s_layers a);
      Ok (<[ "layers" := PStr v ]> params)
    else Ok params);
  params ← lift (
    if truthy (s_country a) then
      raise_if (negb (isinstance_str (s_country a)))
        (TypeError "Country must be a string.");;
      Ok (<[ "country" := s_country a ]> params)
    else Ok params);
  params ← lift (
    if truthy (s_size a) then
      Ok (<[ "size" := s_size a ]> params)
    else Ok params);
  request client "/geocode/search" params (s_dry_run a).

Record structured_args : Type := StructuredArgs {
  t_text : pyval;
  t_address : pyval;
  t_neighbourhood : pyval;
  t_borough : pyval;
  t_locality : pyval;
  t_county : pyval;
  t_region : pyval;
  t_postalcode : pyval;
  t_country : pyval;
  t_dry_run : pyval
}.

Definition pelias_structured (client : Client) (a : structured_args) : M pyval :=
  let params : gmap string pyval := {[ "text" := t_text a ]} in
  params ← lift (
    if truthy (t_address a) then
      raise_if (negb (isinstance_str (t_address a)))
        (TypeError "Address must be a string.");;
      Ok (<[ "address" := t_address a ]> params)
    else Ok params);
  params ← lift (
    if truthy (t_neighbourhood a) then
      raise_if (negb (isinstance_str (t_neighbourhood a)))
        (TypeError "Neighbourhood must be a string.");;
      Ok (<[ "neighbourhood" := t_neighbourhood a ]> params)
    else Ok params);
  params ← lift (
    if truthy (t_borough a) then
      raise_if (negb (isinstance_str (t_borough a)))
        (TypeError "Borough must be a string.");;
      Ok (<[ "borough" := t_borough a ]> params)
    else Ok params);
  params ← lift (
    if truthy (t_locality a) then
      raise_if (negb (isinstance_str (t_locality a)))
        (TypeError "Locality must be a string.");;
      Ok (<[ "locality" := t_locality a ]> params)
    else Ok params);
  params ← lift (
    if truthy (t_county a) then
      raise_if (negb (isinstance_str (t_county a)))
        (TypeError "County must be a string.");;
      Ok (<[ "county" := t_county a ]> params)
    else Ok params);
  params ← lift (
    if truthy (t_region a) then
      raise_if (negb (isinstance_str (t_region a)))
        (TypeError "Region must be a string.");;
      Ok (<[ "region" := t_region a ]> params)
    else Ok params);
  params ← lift (
    if truthy (t_postalcode a) then
      raise_if (negb (isinstance_str (t_postalcode a)))
        (TypeError "Postalcode must be a string.");;
      Ok (<[ "postalcode" := t_postalcode a ]> params)
    else Ok params);
  params ← lift (
    if truthy (t_country a) then
      raise_if (negb (isinstance_str (t_country a)))
        (TypeError "Country must be a string.");;
      Ok (<[ "country" := t_country a ]> params)
    else Ok params);
  request client "/geocode/search/structured" params (t_dry_run a).

Record reverse_args : Type := ReverseArgs {
  r_point : pyval;
  r_circle_radius : pyval;
  r_sources : pyval;
  r_layers : pyval;
  r_country : pyval;
  r_size : pyval;
  r_dry_run : pyval
}.

Definition pelias_reverse (client : Client) (a : reverse_args) : M pyval :=
  let params : gmap string pyval := ∅ in
  lift (raise_if (negb (_is_list (r_point a)))
          (TypeError "Point must be a list/tuple of coordinates."));;
  lon ← lift (getitem (r_point a) 0 ≫= _format_float);
  let params := <[ "point.lon" := PStr lon ]> params in
  lat ← lift (getitem (r_point a) 1 ≫= _format_float);
  let params := <[ "point.lat" := PStr lat ]> params in
  params ← lift (
    if truthy (r_circle_radius a) then
      Ok (<[ "boundary.circle.radius" := PStr (py_str (r_circle_radius a)) ]>
            params)
    else Ok params);
  params ← lift (
    if truthy (r_sources a) then
      raise_if (negb (_is_list (r_sources a)))
        (TypeError "Data source invalid.");;
      xs ← py_iter (r_sources a);
      raise_if (negb (forallb (fun source => py_in source valid_sources) xs))
        (ValueError (str_format "Source must be one or more of {}"
                       (repr_str_list valid_sources)));;
      v ← _comma_list (r_sources a);
      Ok (<[ "sources" := PStr v ]> params)
    else Ok params);
  params ← lift (
    if truthy (r_layers a) then
      raise_if (negb (_is_list (r_layers a)))
        (TypeError "Invalid layer type for geocoding.");;
      xs ← py_iter (r_layers a);
      raise_if (negb (forallb (fun layer => py_in layer valid_layers) xs))
        (ValueError (str_format "Source must be one or more of "
                       (repr_str_list valid_layers)));;
      v ← _comma_list (r_layers a);
      Ok (<[ "layers" := PStr v ]> params)
    else Ok params);
  params ← lift (
    if truthy (r_country a) then
      raise_if (negb (isinstance_str (r_country a)))
        (TypeError "Country must be a string.");;
      Ok (<[ "country" := r_country a ]> params)
    else Ok params);
  params ← lift (
    if truthy (r_size a) then
      Ok (<[ "size" := r_size a ]> params)
    else Ok params);
  request client "/geocode/reverse" params (r_dry_run a).

(** ** The tabular form of the operations

    Each operation is a sequence of conditional stores into [params]
    followed by one call of the client. A [slot] is one [if x: ...] block:
    the input it tests and the items it stores, each with the computation
    of its value. The lemmas [search_tabular], [structured_tabular] and
    [reverse_tabular] prove that the functions above run their table. *)

Record slot : Type := Slot {
  input : pyval;
  writes : list (string * result pyval)
}.

Definition keys (sl : slot) : list string := (writes sl).*1.

Fixpoint store (ws : list (string * result pyval)) (p : gmap string pyval)
    : result (gmap string pyval) :=
  match ws with
  | [] => Ok p
  | (k, e) :: ws => v ← e; store ws (<[ k := v ]> p)
  end.

Definition apply_slot (sl : slot) (p : gmap string pyval)
    : result (gmap string pyval) :=
  if truthy (input sl) then store (writes sl) p else Ok p.

Fixpoint build (slots : list slot) (p : gmap string pyval)
    : result (gmap string pyval) :=
  match slots with
  | [] => Ok p
  | sl :: slots => q ← apply_slot sl p; build slots q
  end.

(** The params are built, then handed to the client. *)
Definition delegate (client : Client) (path : string) (dry_run : pyval)
    (r : result (gmap string pyval)) : M pyval :=
  params ← lift r; request client path params dry_run.

Definition formatted (v : pyval) : result pyval :=
  PStr <$> _format_float v.

Definition coordinate (v : pyval) (i : nat) : result pyval :=
  PStr <$> (getitem v i ≫= _format_float).

(** The validation of [sources] and of [layers]: [type_msg] is raised as
    a [TypeError], [fmt] formatted with the [valid] list as a
    [ValueError]. *)
Definition checked_tokens (type_msg fmt : string) (valid : list string)
    (v : pyval) : result pyval :=
  raise_if (negb (_is_list v)) (TypeError type_msg);;
  xs ← py_iter v;
  raise_if (negb (forallb (fun x => py_in x valid) xs))
    (ValueError (str_format fmt (repr_str_list valid)));;
  PStr <$> _comma_list v.

Definition checked_sources : pyval -> result pyval :=
  checked_tokens "Data source invalid." "Source must be one or more of {}"
    valid_sources.

Definition checked_layers : pyval -> result pyval :=
  checked_tokens "Invalid layer type for geocoding."
    "Source must be one or more of " valid_layers.

Definition checked_str (msg : string) (v : pyval) : result pyval :=
  raise_if (negb (isinstance_str v)) (TypeError msg);; Ok v.

Definition search_table (a : search_args) : list slot :=
  [ Slot (s_focus_point a)
      [("focus.point.lon", coordinate (s_focus_point a) 0);
       ("focus.point.lat", coordinate (s_focus_point a) 1)];
    Slot (s_rect_min_x a)
      [("boundary.rect.min_lon" +:+ TAB, formatted (s_rect_min_x a))];
    Slot (s_rect_min_y a)
      [("boundary.rect.min_lat" +:+ TAB, formatted (s_rect_min_y a))];
    Slot (s_rect_max_x a)
      [("boundary.rect.max_lon" +:+ TAB, formatted (s_rect_max_x a))];
    Slot (s_rect_max_y a)
      [("boundary.rect.max_lon" +:+ TAB, formatted (s_rect_max_y a))];
    Slot (s_circle_point a)
      [("boundary.circle.lon", coordinate (s_circle_point a) 0);
       ("boundary.circle.lat", coordinate (s_circle_point a) 1)];
    Slot (s_circle_radius a)
      [("boundary.circle.radius", Ok (s_circle_radius a))];
    Slot (s_sources a) [("sources", checked_sources (s_sources a))];
    Slot (s_layers a) [("layers", checked_layers (s_layers a))];
    Slot (s_country a)
      [("country", checked_str "Country must be a string." (s_country a))];
    Slot (s_size a) [("size", Ok (s_size a))] ].

Definition structured_table (a : structured_args) : list slot :=
  [ Slot (t_address a)
      [("address", checked_str "Address must be a string." (t_address a))];
    Slot (t_neighbourhood a)
      [("neighbourhood",
        checked_str "Neighbourhood must be a string." (t_neighbourhood a))];
    Slot (t_borough a)
      [("borough", checked_str "Borough must be a string." (t_borough a))];
    Slot (t_locality a)
      [("locality", checked_str "Locality must be a string." (t_locality a))];
    Slot (t_county a)
      [("county", checked_str "County must be a string." (t_county a))];
    Slot (t_region a)
      [("region", checked_str "Region must be a string." (t_region a))];
    Slot (t_postalcode a)
      [("postalcode",
        checked_str "Postalcode must be a string." (t_postalcode a))];
    Slot (t_country a)
      [("country", checked_str "Country must be a string." (t_country a))] ].

Definition reverse_table (a : reverse_args) : list slot :=
  [ Slot (r_circle_radius a)
      [("boundary.circle.radius", Ok (PStr (py_str (r_circle_radius a))))];
    Slot (r_sources a) [("sources", checked_sources (r_sources a))];
    Slot (r_layers a) [("layers", checked_layers (r_layers a))];
    Slot (r_country a)
      [("country", checked_str "Country must be a string." (r_country a))];
    Slot (r_size a) [("size", Ok (r_size a))] ].

(** The params of [pelias_reverse]: the check of [point], the two
    required items, then the table. *)
Definition reverse_params (a : reverse_args) : result (gmap string pyval) :=
  raise_if (negb (_is_list (r_point a)))
    (TypeError "Point must be a list/tuple of coordinates.");;
  lon ← getitem (r_point a) 0 ≫= _format_float;
  lat ← getitem (r_point a) 1 ≫= _format_float;
  build (reverse_table a)
    (<[ "point.lat" := PStr lat ]> (<[ "point.lon" := PStr lon ]> ∅)).

(** ** Vocabulary of the properties *)

(** Running [m] from [log] hands exactly the call [c] to the client. *)
Definition sends (m : M pyval) (log : list call) (c : call) : Prop :=
  (m log).2 = log ++ [c].

Definition key_in (k : string) (sl : slot) : bool :=
  existsb (String.eqb k) (keys sl).

(** A slot passes when its input is falsy or all its values compute. *)
Definition slot_passes (sl : slot) : bool :=
  negb (truthy (input sl)) || forallb (fun w => is_ok w.2) (writes sl).

(** The wire keys of a table, each with the input that decides it. *)
Definition key_inputs (slots : list slot) : list (string * pyval) :=
  sl ← slots; (fun k => (k, input sl)) <$> keys sl.

(** An optional coordinate: omitted, or a number the formatter accepts. *)
Definition coord_ok (v : pyval) : bool :=
  negb (truthy v) || is_ok (_format_float v).

(** The two coordinates of a point can be read and formatted. *)
Definition point_reads (v : pyval) : bool :=
  is_ok (getitem v 0 ≫= _format_float) &&
  is_ok (getitem v 1 ≫= _format_float).

Definition point_ok (v : pyval) : bool :=
  negb (truthy v) || point_reads v.

(** [v] is a sequence whose elements all belong to [valid]. *)
Definition tokens_of (valid : list string) (v : pyval) : bool :=
  _is_list v &&
  match py_iter v with
  | Ok xs => forallb (fun x => py_in x valid) xs
  | Raise _ => false
  end.

Definition tokens_ok (valid : list string) (v : pyval) : bool :=
  negb (truthy v) || tokens_of valid v.

Definition str_ok (v : pyval) : bool :=
  negb (truthy v) || isinstance_str v.

(** The arguments with which each operation reaches [client.request]. *)
Definition search_accepts (a : search_args) : bool :=
  point_ok (s_focus_point a) &&
  coord_ok (s_rect_min_x a) && coord_ok (s_rect_min_y a) &&
  coord_ok (s_rect_max_x a) && coord_ok (s_rect_max_y a) &&
  point_ok (s_circle_point a) &&
  tokens_ok valid_sources (s_sources a) &&
  tokens_ok valid_layers (s_layers a) &&
  str_ok (s_country a).

Definition structured_accepts (a : structured_args) : bool :=
  str_ok (t_address a) && str_ok (t_neighbourhood a) &&
  str_ok (t_borough a) && str_ok (t_locality a) && str_ok (t_county a) &&
  str_ok (t_region a) && str_ok (t_postalcode a) && str_ok (t_country a).

Definition reverse_accepts (a : reverse_args) : bool :=
  _is_list (r_point a) && point_reads (r_point a) &&
  tokens_ok valid_sources (r_sources a) &&
  tokens_ok valid_layers (r_layers a) &&
  str_ok (r_country a).

(** The optional wire keys of each operation, with their inputs. *)
Definition search_inputs (a : search_args) : list (string * pyval) :=
  [("focus.point.lon", s_focus_point a);
   ("focus.point.lat", s_focus_point a);
   ("boundary.rect.min_lon" +:+ TAB, s_rect_min_x a);
   ("boundary.rect.min_lat" +:+ TAB, s_rect_min_y a);
   ("boundary.rect.max_lon" +:+ TAB, s_rect_max_x a);
   ("boundary.rect.max_lon" +:+ TAB, s_rect_max_y a);
   ("boundary.circle.lon", s_circle_point a);
   ("boundary.circle.lat", s_circle_point a);
   ("boundary.circle.radius", s_circle_radius a);
   ("sources", s_sources a);
   ("layers", s_layers a);
   ("country", s_country a);
   ("size", s_size a)].

Definition structured_inputs (a : structured_args) : list (string * pyval) :=
  [("address", t_address a);
   ("neighbourhood", t_neighbourhood a);
   ("borough", t_borough a);
   ("locality", t_locality a);
   ("county", t_county a);
   ("region", t_region a);
   ("postalcode", t_postalcode a);
   ("country", t_country a)].

Definition reverse_inputs (a : reverse_args) : list (string * pyval) :=
  [("boundary.circle.radius", r_circle_radius a);
   ("sources", r_sources a);
   ("layers", r_layers a);
   ("country", r_country a);
   ("size", r_size a)].

Definition search_with_text (t : pyval) (a : search_args) : search_args :=
  SearchArgs t (s_focus_point a) (s_rect_min_x a) (s_rect_min_y a)
    (s_rect_max_x a) (s_rect_max_y a) (s_circle_point a) (s_circle_radius a)
    (s_sources a) (s_layers a) (s_country a) (s_size a) (s_dry_run a).

Definition structured_with_text (t : pyval) (a : structured_args)
    : structured_args :=
  StructuredArgs t (t_address a) (t_neighbourhood a) (t_borough a)
    (t_locality a) (t_county a) (t_region a) (t_postalcode a) (t_country a)
    (t_dry_run a).

(** The calls with every optional parameter omitted. *)
Definition search_only (text dry_run : pyval) : search_args :=
  SearchArgs text PNone PNone PNone PNone PNone PNone PNone PNone PNone
    PNone PNone dry_run.

Definition structured_only (text dry_run : pyval) : structured_args :=
  StructuredArgs text PNone PNone PNone PNone PNone PNone PNone PNone dry_run.

Definition reverse_only (point dry_run : pyval) : reverse_args :=
  ReverseArgs point PNone PNone PNone PNone PNone dry_run.

(** Whether [sub] occurs in [s]. *)
Fixpoint contains (sub s : string) : bool :=
  String.prefix sub s ||
  match s with
  | "" => false
  | String _ s' => contains sub s'
  end.

(** ** Further vocabulary *)

(** The eight optional fields of [pelias_structured] in the order of
    their checks (lines 211 to 249): wire key, message of the [TypeError],
    value. *)
Definition structured_fields (a : structured_args)
    : list (string * string * pyval) :=
  [("address", "Address must be a string.", t_address a);
   ("neighbourhood", "Neighbourhood must be a string.", t_neighbourhood a);
   ("borough", "Borough must be a string.", t_borough a);
   ("locality", "Locality must be a string.", t_locality a);
   ("county", "County must be a string.", t_county a);
   ("region", "Region must be a string.", t_region a);
   ("postalcode", "Postalcode must be a string.", t_postalcode a);
   ("country", "Country must be a string.", t_country a)].




End Definitions.

(** ** A concrete environment *)

(** A client that answers every request with [None]. *)
Definition null_client : Client :=
  {| client_request := fun _ _ => Ok PNone |}.

(** [repr(v)]: floats in positional notation, strings quoted without
    escapes. *)
Fixpoint py_repr (v : pyval) : string :=
  match v with
  | PNone => "None"
  | PBool b => if b then "True" else "False"
  | PInt n => pretty n
  | PFloat m e =>
      format_decimal m e +:+ (if (dec_normalise m e).2 is O then ".0" else "")
  | PStr s => "'" +:+ s +:+ "'"
  | PList xs => "[" +:+ join ", " (List.map py_repr xs) +:+ "]"
  | PTuple xs =>
      "(" +:+ join ", " (List.map py_repr xs) +:+
      (if xs is [_] then "," else "") +:+ ")"
  | PDict kvs =>
      "{" +:+
      join ", " (List.map (fun kv => py_repr kv.1 +:+ ": " +:+ py_repr kv.2) kvs)
      +:+ "}"
  end.

(** A model of the builtin [str]. *)
Definition str_model (v : pyval) : string :=
  match v with
  | PStr s => s
  | _ => py_repr v
  end.

(** The environment of the concrete runs: [float()] refuses a value that
    is not a number with a [TypeError], and a string that does not denote
    one with a [ValueError]. *)
Definition model_runtime : Runtime := {|
  py_str := str_model;
  format_other := fun v =>
    match v with
    | PStr _ => Raise (ValueError "could not convert string to float")
    | _ => Raise (TypeError "float() argument must be a string or a number")
    end
|}.

(** Case analysis on the membership of a pair in an explicit list. *)
Ltac each_input H :=
  repeat (apply elem_of_cons in H as [H|H];
          [simplify_eq; try discriminate; try reflexivity |]);
  try (apply elem_of_nil in H; destruct H).

Section Properties.

Context `{rt : Runtime}.

(** ** The helpers on sample values *)

Example format_float_ex1 : _format_float (PFloat 834234 5) = Ok "8.34234".
Proof. vm_compute. reflexivity. Qed.
Example format_float_ex2 : _format_float (PFloat (-4823000) 5) = Ok "-48.23".
Proof. vm_compute. reflexivity. Qed.
Example format_float_ex3 : _format_float (PFloat 5 3) = Ok "0.005".
Proof. vm_compute. reflexivity. Qed.
Example format_float_ex4 : _format_float (PFloat 500 2) = Ok "5".
Proof. vm_compute. reflexivity. Qed.
Example format_float_ex5 : _format_float (PInt (-12)) = Ok "-12".
Proof. vm_compute. reflexivity. Qed.
Example str_format_ex :
  str_format "a {} b" "X" = "a X b" /\ str_format "ab " "X" = "ab ".
Proof. vm_compute. split; reflexivity. Qed.
Example repr_ex : repr_str_list ["osm"; "oa"] = "['osm', 'oa']".
Proof. vm_compute. reflexivity. Qed.

(** ** The functions run their tables *)

Lemma lift_step {A} (r r' : result A) (K : A -> M pyval)
    (K' : A -> result (gmap string pyval)) client path dry_run log :
  r = r' ->
  (forall q, K q log = delegate client path dry_run (K' q) log) ->
  (lift r ≫= K) log = delegate client path dry_run (r' ≫= K') log.
Proof.
  intros <- HK. unfold delegate in *.
  destruct r as [x|e]; [apply HK | reflexivity].
Qed.

Lemma lift_last client path dry_run (q : gmap string pyval) log :
  request client path q dry_run log = delegate client path dry_run (Ok q) log.
Proof. reflexivity. Qed.

Ltac slot_step :=
  unfold apply_slot, store, formatted, coordinate, checked_sources,
    checked_layers, checked_tokens, checked_str; cbn [input writes];
  match goal with
  | |- context [truthy ?x] => destruct (truthy x); [|reflexivity]
  end;
  unfold mbind, result_bind, fmap, result_fmap;
  repeat (cbv beta iota; try reflexivity;
          match goal with
          | |- context [match ?r with Ok _ => _ | Raise _ => _ end] =>
              destruct r
          end);
  cbv beta iota; reflexivity.

Ltac run_table :=
  repeat (apply lift_step; [slot_step | intros ?]); apply lift_last.

Lemma search_tabular client a log :
  pelias_search client a log =
  delegate client "/geocode/search" (s_dry_run a)
    (build (search_table a) {[ "text" := s_text a ]}) log.
Proof.
  unfold pelias_search, search_table.
  generalize ({[ "text" := s_text a ]} : gmap string pyval). intros p.
  cbn [build]. run_table.
Qed.

Lemma structured_tabular client a log :
  pelias_structured client a log =
  delegate client "/geocode/search/structured" (t_dry_run a)
    (build (structured_table a) {[ "text" := t_text a ]}) log.
Proof.
  unfold pelias_structured, structured_table.
  generalize ({[ "text" := t_text a ]} : gmap string pyval). intros p.
  cbn [build]. run_table.
Qed.

Lemma reverse_tabular client a log :
  pelias_reverse client a log =
  delegate client "/geocode/reverse" (r_dry_run a)
    (reverse_params a) log.
Proof.
  unfold pelias_reverse, reverse_params, reverse_table.
  apply lift_step; [reflexivity | intros _].
  apply lift_step; [reflexivity | intros lon].
  apply lift_step; [reflexivity | intros lat].
  generalize (<[ "point.lat" := PStr lat ]>
                (<[ "point.lon" := PStr lon ]> (∅ : gmap string pyval))).
  intros p. cbn [build]. run_table.
Qed.

(** ** Properties of tables *)

Lemma delegate_ok client path dry_run p log :
  delegate client path dry_run (Ok p) log =
  (client_request client log (Call path p dry_run),
   log ++ [Call path p dry_run]).
Proof. reflexivity. Qed.

Lemma delegate_raise client path dry_run e log :
  delegate client path dry_run (Raise e) log = (Raise e, log).
Proof. reflexivity. Qed.

Lemma sends_delegate client path dry_run r log c :
  sends (delegate client path dry_run r) log c ->
  exists p, r = Ok p /\ c = Call path p dry_run.
Proof.
  unfold sends. destruct r as [p|e].
  - rewrite delegate_ok. cbn [snd]. intros H.
    apply app_inv_head in H. exists p. split; [reflexivity | congruence].
  - rewrite delegate_raise. cbn [snd]. intros H.
    apply (f_equal length) in H. rewrite length_app in H. cbn in H. lia.
Qed.

Lemma bind_ok_inv {A B} (r : result A) (f : A -> result B) y :
  r ≫= f = Ok y -> exists x, r = Ok x /\ f x = Ok y.
Proof. destruct r as [x|e]; [eauto | discriminate]. Qed.

Lemma is_ok_true {A} (r : result A) : is_ok r = true -> exists x, r = Ok x.
Proof. destruct r; [eauto | discriminate]. Qed.

Lemma is_ok_false {A} (r : result A) : is_ok r = false -> exists e, r = Raise e.
Proof. destruct r; [discriminate | eauto]. Qed.

Lemma store_unfold k e ws p :
  store ((k, e) :: ws) p = (v ← e; store ws (<[ k := v ]> p)).
Proof. reflexivity. Qed.

Lemma build_unfold sl slots p :
  build (sl :: slots) p = (q ← apply_slot sl p; build slots q).
Proof. reflexivity. Qed.

Lemma build_app l1 l2 p : build (l1 ++ l2) p = (q ← build l1 p; build l2 q).
Proof.
  revert p. induction l1 as [|sl l1 IH]; intros p; [reflexivity|].
  rewrite <- app_comm_cons, !build_unfold.
  destruct (apply_slot sl p) as [q|e]; [apply IH | reflexivity].
Qed.

(** A key that is not among the items of a list of stores is untouched. *)
Lemma store_lookup_ne ws p p' k :
  store ws p = Ok p' -> k ∉ ws.*1 -> p' !! k = p !! k.
Proof.
  revert p. induction ws as [|[k' e] ws IH]; intros p H Hk.
  - injection H as <-. reflexivity.
  - rewrite store_unfold in H. apply bind_ok_inv in H as (v & _ & H).
    rewrite fmap_cons, not_elem_of_cons in Hk. destruct Hk as [Hne Hk].
    rewrite (IH _ H Hk). apply lookup_insert_ne. cbn in Hne. congruence.
Qed.

(** After a list of stores, the keys present are the old ones and the
    stored ones. *)
Lemma store_is_Some ws p p' k :
  store ws p = Ok p' -> is_Some (p' !! k) <-> is_Some (p !! k) \/ k ∈ ws.*1.
Proof.
  revert p. induction ws as [|[k' e] ws IH]; intros p H.
  - injection H as <-. rewrite fmap_nil, elem_of_nil. tauto.
  - rewrite store_unfold in H. apply bind_ok_inv in H as (v & _ & H).
    rewrite (IH _ H), fmap_cons, elem_of_cons. cbn [fst].
    destruct (decide (k' = k)) as [->|Hne].
    + rewrite lookup_insert_eq. split; [intros _ | intros _; left; eauto].
      right. left. reflexivity.
    + rewrite lookup_insert_ne by exact Hne.
      split; [tauto|]. intros [?|[?|?]]; [tauto | congruence | tauto].
Qed.

Lemma elem_of_keys_key_in k sl : k ∈ keys sl <-> key_in k sl = true.
Proof.
  unfold key_in. rewrite existsb_exists. setoid_rewrite String.eqb_eq.
  rewrite list_elem_of_In. split; [eauto | intros (x & ? & ->); assumption].
Qed.

Lemma apply_slot_lookup_ne sl p p' k :
  apply_slot sl p = Ok p' -> key_in k sl = false -> p' !! k = p !! k.
Proof.
  unfold apply_slot. intros H Hk. destruct (truthy (input sl)).
  - apply (store_lookup_ne _ _ _ _ H). fold (keys sl).
    rewrite elem_of_keys_key_in. congruence.
  - congruence.
Qed.

(** A key that no slot of the table stores keeps its entry. *)
Lemma build_lookup_ne slots p p' k :
  build slots p = Ok p' ->
  forallb (fun sl => negb (key_in k sl)) slots = true ->
  p' !! k = p !! k.
Proof.
  revert p. induction slots as [|sl slots IH]; intros p H Hk.
  - injection H as <-. reflexivity.
  - rewrite build_unfold in H. apply bind_ok_inv in H as (q & Hq & H).
    cbn [forallb] in Hk. apply andb_prop in Hk as [Hsl Hk].
    rewrite (IH _ H Hk). apply (apply_slot_lookup_ne _ _ _ _ Hq).
    destruct (key_in k sl); [discriminate | reflexivity].
Qed.

Lemma elem_of_key_inputs slots k x :
  (k, x) ∈ key_inputs slots <-> exists sl, sl ∈ slots /\ x = input sl /\ k ∈ keys sl.
Proof.
  unfold key_inputs. rewrite list_elem_of_bind. split.
  - intros (sl & Hin & Hsl). apply list_elem_of_fmap in Hin as (k' & Heq & Hk).
    injection Heq as -> ->. eauto.
  - intros (sl & Hsl & -> & Hk). exists sl. split; [|assumption].
    apply list_elem_of_fmap. eauto.
Qed.

(** The keys present after a table are the old ones and those of the
    slots whose input is truthy. *)
Lemma build_is_Some slots p p' k :
  build slots p = Ok p' ->
  is_Some (p' !! k) <->
  is_Some (p !! k) \/ exists x, (k, x) ∈ key_inputs slots /\ truthy x = true.
Proof.
  revert p. induction slots as [|sl slots IH]; intros p H.
  - injection H as <-. split; [tauto|]. intros [?|(x & Hx & _)]; [assumption|].
    apply elem_of_key_inputs in Hx as (? & Hx & _). inversion Hx.
  - rewrite build_unfold in H. apply bind_ok_inv in H as (q & Hq & H).
    rewrite (IH _ H). clear IH H. unfold apply_slot in Hq.
    assert (is_Some (q !! k) <->
            is_Some (p !! k) \/ (truthy (input sl) = true /\ k ∈ keys sl)) as ->.
    { destruct (truthy (input sl)).
      - rewrite (store_is_Some _ _ _ k Hq). unfold keys. tauto.
      - injection Hq as <-. split; [tauto|]. intros [?|[? _]]; [tauto|discriminate]. }
    setoid_rewrite elem_of_key_inputs. split.
    + intros [[?|[Ht Hk]]|(x & (sl' & Hin & -> & Hk) & Ht)]; [tauto | |].
      * right. exists (input sl). split; [|assumption].
        exists sl. split; [left | tauto].
      * right. exists (input sl'). split; [|assumption].
        exists sl'. split; [right; assumption | tauto].
    + intros [?|(x & (sl' & Hin & -> & Hk) & Ht)]; [tauto|].
      apply elem_of_cons in Hin as [->|Hin]; [tauto|].
      right. exists (input sl'). split; [|assumption]. eauto.
Qed.

Lemma store_is_ok ws p :
  is_ok (store ws p) = forallb (fun w => is_ok w.2) ws.
Proof.
  revert p. induction ws as [|[k e] ws IH]; intros p; [reflexivity|].
  rewrite store_unfold. cbn [forallb snd].
  destruct e as [v|e]; [apply IH | reflexivity].
Qed.

Lemma apply_slot_is_ok sl p : is_ok (apply_slot sl p) = slot_passes sl.
Proof.
  unfold apply_slot, slot_passes.
  destruct (truthy (input sl)); [apply store_is_ok | reflexivity].
Qed.

(** A table succeeds exactly when all its slots pass. *)
Lemma build_is_ok slots p : is_ok (build slots p) = forallb slot_passes slots.
Proof.
  revert p. induction slots as [|sl slots IH]; intros p; [reflexivity|].
  rewrite build_unfold. cbn [forallb]. rewrite <- (apply_slot_is_ok sl p).
  destruct (apply_slot sl p) as [q|e]; [apply IH | reflexivity].
Qed.

(** The exception of a table does not depend on the mapping it starts
    from. *)
Lemma store_raise_indep ws p p' e :
  store ws p = Raise e -> store ws p' = Raise e.
Proof.
  revert p p'. induction ws as [|[k r] ws IH]; intros p p' H; [discriminate|].
  rewrite store_unfold in *. destruct r as [v|e']; [|exact H].
  exact (IH _ _ H).
Qed.

Lemma build_raise_indep slots p p' e :
  build slots p = Raise e -> build slots p' = Raise e.
Proof.
  revert p p'. induction slots as [|sl slots IH]; intros p p' H; [discriminate|].
  rewrite build_unfold in *.
  pose proof (apply_slot_is_ok sl p) as Hp.
  pose proof (apply_slot_is_ok sl p') as Hp'.
  destruct (apply_slot sl p) as [q|e1] eqn:E1,
           (apply_slot sl p') as [q'|e2] eqn:E2;
    cbn [is_ok] in Hp, Hp'; try congruence.
  - exact (IH _ _ H).
  - unfold apply_slot in E1, E2. destruct (truthy (input sl)); [|discriminate].
    rewrite (store_raise_indep _ _ p' _ E1) in E2. injection E2 as <-. exact H.
Qed.

(** The entry of a key after a table is its entry after the last slot
    that can store it. *)
Lemma build_at i slots sl p p' k :
  build slots p = Ok p' ->
  slots !! i = Some sl ->
  forallb (fun s => negb (key_in k s)) (drop (S i) slots) = true ->
  exists q q', build (take i slots) p = Ok q /\ apply_slot sl q = Ok q' /\
    p' !! k = q' !! k.
Proof.
  intros H Hi Hpost. rewrite <- (take_drop_middle _ _ _ Hi), build_app in H.
  apply bind_ok_inv in H as (q & Hq & H). rewrite build_unfold in H.
  apply bind_ok_inv in H as (q' & Hq' & H).
  exists q, q'. repeat split; try assumption.
  exact (build_lookup_ne _ _ _ _ H Hpost).
Qed.

Lemma apply_slot_single sl q q' k e :
  apply_slot sl q = Ok q' ->
  writes sl = [(k, e)] ->
  truthy (input sl) = true ->
  exists v, e = Ok v /\ q' = <[ k := v ]> q.
Proof.
  unfold apply_slot. intros H Hw Ht. rewrite Hw, Ht, store_unfold in H.
  apply bind_ok_inv in H as (v & -> & H). injection H as <-. eauto.
Qed.

Lemma apply_slot_skip sl q q' :
  apply_slot sl q = Ok q' -> truthy (input sl) = false -> q' = q.
Proof. unfold apply_slot. intros H Ht. rewrite Ht in H. congruence. Qed.

(** A truthy input whose slot is the last to store [k] decides the entry
    of [k]. *)
Lemma build_written i slots sl p p' k e :
  build slots p = Ok p' ->
  slots !! i = Some sl ->
  writes sl = [(k, e)] ->
  truthy (input sl) = true ->
  forallb (fun s => negb (key_in k s)) (drop (S i) slots) = true ->
  exists v, e = Ok v /\ p' !! k = Some v.
Proof.
  intros H Hi Hw Ht Hpost.
  destruct (build_at _ _ _ _ _ _ H Hi Hpost) as (q & q' & _ & Hq' & ->).
  destruct (apply_slot_single _ _ _ _ _ Hq' Hw Ht) as (v & -> & ->).
  exists v. split; [reflexivity | apply lookup_insert_eq].
Qed.

(** A falsy input leaves the entry to the slots before it. *)
Lemma build_skipped i slots sl p p' k :
  build slots p = Ok p' ->
  slots !! i = Some sl ->
  truthy (input sl) = false ->
  forallb (fun s => negb (key_in k s)) (drop (S i) slots) = true ->
  exists q, build (take i slots) p = Ok q /\ p' !! k = q !! k.
Proof.
  intros H Hi Ht Hpost.
  destruct (build_at _ _ _ _ _ _ H Hi Hpost) as (q & q' & Hq & Hq' & ->).
  rewrite (apply_slot_skip _ _ _ Hq' Ht). eauto.
Qed.

(** A table raises the exception of the first store that fails, once
    the slots before it pass. *)
Lemma build_rejects i slots sl p k r e ws :
  slots !! i = Some sl ->
  forallb slot_passes (take i slots) = true ->
  truthy (input sl) = true ->
  writes sl = (k, r) :: ws ->
  r = Raise e ->
  build slots p = Raise e.
Proof.
  intros Hi Hpre Ht Hw ->.
  rewrite <- (take_drop_middle _ _ _ Hi), build_app.
  rewrite <- (build_is_ok _ p) in Hpre.
  destruct (build (take i slots) p) as [q|]; [|discriminate].
  change (build (sl :: drop (S i) slots) q = Raise e).
  rewrite build_unfold. unfold apply_slot. rewrite Ht, Hw. reflexivity.
Qed.

(** ** Which arguments reach the client *)

Lemma is_ok_fmap {A B} (f : A -> B) (r : result A) : is_ok (f <$> r) = is_ok r.
Proof. destruct r; reflexivity. Qed.

Lemma py_in_str x valid : py_in x valid = true -> exists s, x = PStr s /\ s ∈ valid.
Proof.
  destruct x; try discriminate. cbn [py_in]. rewrite existsb_exists.
  intros (t & Ht & Heq). apply String.eqb_eq in Heq as ->.
  eexists. split; [reflexivity|]. apply list_elem_of_In. exact Ht.
Qed.

(** A sequence of valid tokens is a sequence of strings. *)
Lemma all_str_tokens valid xs :
  forallb (fun x => py_in x valid) xs = true ->
  exists l, all_str xs = Ok l /\ xs = PStr <$> l /\ Forall (fun s => s ∈ valid) l.
Proof.
  induction xs as [|x xs IH]; cbn [forallb].
  - intros _. exists []. repeat split. constructor.
  - intros H. apply andb_prop in H as [Hx Hxs].
    apply py_in_str in Hx as (s & -> & Hs).
    destruct (IH Hxs) as (l & Hl & -> & Hall).
    exists (s :: l). cbn [all_str as_str]. rewrite Hl.
    repeat split. constructor; assumption.
Qed.

Lemma is_list_iter v : _is_list v = true -> exists xs, py_iter v = Ok xs /\ (v = PList xs \/ v = PTuple xs).
Proof. destruct v; try discriminate; intros _; eauto. Qed.

Lemma checked_tokens_is_ok type_msg fmt valid v :
  is_ok (checked_tokens type_msg fmt valid v) = tokens_of valid v.
Proof.
  unfold checked_tokens, tokens_of.
  destruct (_is_list v) eqn:Hl; [|reflexivity].
  destruct (is_list_iter v Hl) as (xs & -> & Hv).
  cbn [raise_if negb andb mbind result_bind].
  destruct (forallb (fun x => py_in x valid) xs) eqn:Hall; [|reflexivity].
  destruct (all_str_tokens _ _ Hall) as (l & Hstr & _).
  cbn [raise_if negb mbind result_bind]. rewrite is_ok_fmap.
  destruct Hv as [-> | ->]; cbn [_comma_list]; rewrite Hstr; reflexivity.
Qed.

Lemma checked_str_is_ok msg v : is_ok (checked_str msg v) = isinstance_str v.
Proof. unfold checked_str. destruct (isinstance_str v); reflexivity. Qed.

Ltac slots_pass :=
  cbn [forallb]; unfold slot_passes; cbn [forallb input writes snd];
  unfold coordinate, formatted, checked_sources, checked_layers;
  rewrite ?is_ok_fmap, ?checked_tokens_is_ok, ?checked_str_is_ok;
  cbn [is_ok]; rewrite ?andb_true_r, ?orb_true_r, ?andb_true_l, ?andb_assoc,
    ?andb_true_r;
  reflexivity.

Lemma search_table_passes a :
  forallb slot_passes (search_table a) = search_accepts a.
Proof.
  unfold search_table, search_accepts, point_ok, coord_ok, tokens_ok, str_ok,
    point_reads.
  slots_pass.
Qed.

Lemma structured_table_passes a :
  forallb slot_passes (structured_table a) = structured_accepts a.
Proof. unfold structured_table, structured_accepts, str_ok. slots_pass. Qed.

Lemma reverse_params_is_ok a :
  is_ok (reverse_params a) = reverse_accepts a.
Proof.
  unfold reverse_params, reverse_accepts, point_reads.
  destruct (_is_list (r_point a)); [|reflexivity]. cbn [raise_if negb andb].
  destruct (getitem (r_point a) 0 ≫= _format_float) as [lon|e]; [|reflexivity].
  destruct (getitem (r_point a) 1 ≫= _format_float) as [lat|e]; [|reflexivity].
  change (is_ok (build (reverse_table a)
            (<[ "point.lat" := PStr lat ]> (<[ "point.lon" := PStr lon ]> ∅))) =
          tokens_ok valid_sources (r_sources a) &&
          tokens_ok valid_layers (r_layers a) && str_ok (r_country a)).
  rewrite build_is_ok.
  unfold reverse_table, tokens_ok, str_ok. slots_pass.
Qed.

(** Each operation either raises without a call, or makes one call and
    returns what the client answers. *)
Lemma delegate_cases client path dry_run r log :
  (is_ok r = false /\ exists e, delegate client path dry_run r log = (Raise e, log)) \/
  (is_ok r = true /\ exists p, r = Ok p /\
     delegate client path dry_run r log =
     (client_request client log (Call path p dry_run),
      log ++ [Call path p dry_run])).
Proof. destruct r as [p|e]; [right | left]; cbn [is_ok]; eauto. Qed.

Section Runs.

Variable client : Client.
Variable log : list call.

Lemma search_sends a c :
  sends (pelias_search client a) log c ->
  build (search_table a) {[ "text" := s_text a ]} = Ok (call_params c) /\
  call_path c = "/geocode/search" /\ call_dry_run c = s_dry_run a.
Proof.
  unfold sends. rewrite search_tabular. intros H.
  apply sends_delegate in H as (p & -> & ->). repeat split.
Qed.

Lemma structured_sends a c :
  sends (pelias_structured client a) log c ->
  build (structured_table a) {[ "text" := t_text a ]} = Ok (call_params c) /\
  call_path c = "/geocode/search/structured" /\ call_dry_run c = t_dry_run a.
Proof.
  unfold sends. rewrite structured_tabular. intros H.
  apply sends_delegate in H as (p & -> & ->). repeat split.
Qed.

Lemma reverse_sends a c :
  sends (pelias_reverse client a) log c ->
  reverse_params a = Ok (call_params c) /\
  call_path c = "/geocode/reverse" /\ call_dry_run c = r_dry_run a.
Proof.
  unfold sends. rewrite reverse_tabular. intros H.
  apply sends_delegate in H as (p & -> & ->). repeat split.
Qed.

Lemma search_accepted a :
  search_accepts a = true ->
  exists c, pelias_search client a log = (client_request client log c, log ++ [c]) /\
    build (search_table a) {[ "text" := s_text a ]} = Ok (call_params c) /\
    call_path c = "/geocode/search" /\ call_dry_run c = s_dry_run a.
Proof.
  intros H. rewrite search_tabular.
  rewrite <- search_table_passes,
    <- (build_is_ok _ {[ "text" := s_text a ]}) in H.
  apply is_ok_true in H as [p ->]. eexists (Call _ p _). repeat split.
Qed.

Lemma search_refused a :
  search_accepts a = false ->
  exists e, pelias_search client a log = (Raise e, log).
Proof.
  intros H. rewrite search_tabular.
  rewrite <- search_table_passes,
    <- (build_is_ok _ {[ "text" := s_text a ]}) in H.
  apply is_ok_false in H as [e ->]. exists e. reflexivity.
Qed.

Lemma structured_accepted a :
  structured_accepts a = true ->
  exists c, pelias_structured client a log =
            (client_request client log c, log ++ [c]) /\
    build (structured_table a) {[ "text" := t_text a ]} = Ok (call_params c) /\
    call_path c = "/geocode/search/structured" /\
    call_dry_run c = t_dry_run a.
Proof.
  intros H. rewrite structured_tabular.
  rewrite <- structured_table_passes,
    <- (build_is_ok _ {[ "text" := t_text a ]}) in H.
  apply is_ok_true in H as [p ->]. eexists (Call _ p _). repeat split.
Qed.

Lemma structured_refused a :
  structured_accepts a = false ->
  exists e, pelias_structured client a log = (Raise e, log).
Proof.
  intros H. rewrite structured_tabular.
  rewrite <- structured_table_passes,
    <- (build_is_ok _ {[ "text" := t_text a ]}) in H.
  apply is_ok_false in H as [e ->]. exists e. reflexivity.
Qed.

Lemma reverse_accepted a :
  reverse_accepts a = true ->
  exists c, pelias_reverse client a log =
            (client_request client log c, log ++ [c]) /\
    reverse_params a = Ok (call_params c) /\
    call_path c = "/geocode/reverse" /\ call_dry_run c = r_dry_run a.
Proof.
  intros H. rewrite reverse_tabular.
  rewrite <- reverse_params_is_ok in H.
  apply is_ok_true in H as [p ->]. eexists (Call _ p _). repeat split.
Qed.

Lemma reverse_refused a :
  reverse_accepts a = false ->
  exists e, pelias_reverse client a log = (Raise e, log).
Proof.
  intros H. rewrite reverse_tabular.
  rewrite <- reverse_params_is_ok in H.
  apply is_ok_false in H as [e ->]. exists e. reflexivity.
Qed.

(** The check of [point] and the two required items of [pelias_reverse]. *)
Lemma reverse_params_inv a p :
  reverse_params a = Ok p ->
  _is_list (r_point a) = true /\
  exists lon lat,
    getitem (r_point a) 0 ≫= _format_float = Ok lon /\
    getitem (r_point a) 1 ≫= _format_float = Ok lat /\
    build (reverse_table a)
      (<[ "point.lat" := PStr lat ]> (<[ "point.lon" := PStr lon ]> ∅)) = Ok p.
Proof.
  unfold reverse_params. destruct (_is_list (r_point a)); [|discriminate].
  cbn [raise_if negb]. intros H. split; [reflexivity|].
  apply bind_ok_inv in H as (_ & _ & H).
  apply bind_ok_inv in H as (lon & Hlon & H).
  apply bind_ok_inv in H as (lat & Hlat & H). eauto.
Qed.

(** C6. Whenever the arguments of an operation fail its validation, the
    operation raises and the log of calls is left as it was: the request
    method of the client is not invoked. Arguments that pass lead to
    exactly one call, whose outcome is returned. *)
Theorem C6_no_request_on_invalid_arguments :
  (forall a, search_accepts a = false ->
     exists e, pelias_search client a log = (Raise e, log)) /\
  (forall a, structured_accepts a = false ->
     exists e, pelias_structured client a log = (Raise e, log)) /\
  (forall a, reverse_accepts a = false ->
     exists e, pelias_reverse client a log = (Raise e, log)) /\
  (forall a, search_accepts a = true ->
     exists c, pelias_search client a log =
               (client_request client log c, log ++ [c])) /\
  (forall a, structured_accepts a = true ->
     exists c, pelias_structured client a log =
               (client_request client log c, log ++ [c])) /\
  (forall a, reverse_accepts a = true ->
     exists c, pelias_reverse client a log =
               (client_request client log c, log ++ [c])).
Proof.
  split; [|split; [|split; [|split; [|split]]]].
  - apply search_refused.
  - apply structured_refused.
  - apply reverse_refused.
  - intros a H. destruct (search_accepted a H) as (c & Hc & _). eauto.
  - intros a H. destruct (structured_accepted a H) as (c & Hc & _). eauto.
  - intros a H. destruct (reverse_accepted a H) as (c & Hc & _). eauto.
Qed.

(** C7. With every optional parameter omitted, the mapping holds the
    required keys only and goes to the fixed path of the operation; the
    point (8.34, 48.23) is sent as point.lon 8.34 and point.lat 48.23. *)
Theorem C7_required_keys_and_paths :
  (forall text dry_run,
     pelias_search client (search_only text dry_run) log =
     let c := Call "/geocode/search" {[ "text" := text ]} dry_run in
     (client_request client log c, log ++ [c])) /\
  (forall text dry_run,
     pelias_structured client (structured_only text dry_run) log =
     let c := Call "/geocode/search/structured" {[ "text" := text ]} dry_run in
     (client_request client log c, log ++ [c])) /\
  (forall point dry_run lon lat,
     _is_list point = true ->
     getitem point 0 ≫= _format_float = Ok lon ->
     getitem point 1 ≫= _format_float = Ok lat ->
     pelias_reverse client (reverse_only point dry_run) log =
     let c := Call "/geocode/reverse"
                {[ "point.lon" := PStr lon; "point.lat" := PStr lat ]}
                dry_run in
     (client_request client log c, log ++ [c])) /\
  pelias_reverse client
    (reverse_only (PTuple [PFloat 834 2; PFloat 4823 2]) PNone) log =
  (let c := Call "/geocode/reverse"
              {[ "point.lon" := PStr "8.34"; "point.lat" := PStr "48.23" ]}
              PNone in
   (client_request client log c, log ++ [c])).
Proof.
  assert (forall point dry_run lon lat,
     _is_list point = true ->
     getitem point 0 ≫= _format_float = Ok lon ->
     getitem point 1 ≫= _format_float = Ok lat ->
     pelias_reverse client (reverse_only point dry_run) log =
     let c := Call "/geocode/reverse"
                {[ "point.lon" := PStr lon; "point.lat" := PStr lat ]}
                dry_run in
     (client_request client log c, log ++ [c])) as Hrev.
  { intros point dry_run lon lat Hl Hlon Hlat.
    rewrite reverse_tabular. unfold reverse_params, reverse_only.
    cbn [r_point r_dry_run]. rewrite Hl, Hlon, Hlat.
    cbn [raise_if negb mbind result_bind reverse_table r_circle_radius
           r_sources r_layers r_country r_size build apply_slot input truthy].
    rewrite delegate_ok. cbv zeta.
    rewrite (insert_insert_ne (M:=gmap string) ∅ "point.lat" "point.lon")
      by discriminate.
    reflexivity. }
  split; [|split; [|split]].
  - intros text dry_run. rewrite search_tabular. reflexivity.
  - intros text dry_run. rewrite structured_tabular. reflexivity.
  - exact Hrev.
  - apply Hrev; vm_compute; reflexivity.
Qed.

Lemma singleton_is_Some (k0 k : string) (v : pyval) :
  is_Some (({[ k0 := v ]} : gmap string pyval) !! k) <-> k = k0.
Proof.
  destruct (decide (k0 = k)) as [->|Hne].
  - rewrite lookup_singleton_eq. split; eauto.
  - rewrite lookup_singleton_ne by exact Hne.
    split; [intros [? ?]; discriminate | congruence].
Qed.

Lemma point_items_is_Some (lon lat : pyval) (k : string) :
  is_Some ((<[ "point.lat" := lat ]>
              (<[ "point.lon" := lon ]> (∅ : gmap string pyval))) !! k) <->
  k = "point.lon" \/ k = "point.lat".
Proof.
  rewrite !lookup_insert_is_Some, lookup_empty, is_Some_alt.
  split; [intros [?|[? [?|[_ []]]]]; eauto|].
  destruct (decide ("point.lat" = k)); [tauto|].
  intros [->| ->]; [right; split; [assumption | left; reflexivity] | congruence].
Qed.

(** C1, as amended. The key of every optional input is in the mapping
    handed to the client exactly when that input is truthy; the keys of
    the required inputs, [text] and the two coordinates of [point], are
    in it whatever their value. *)
Theorem C1_optional_keys_follow_truthy_inputs :
  (forall a c, sends (pelias_search client a) log c ->
     forall k, is_Some (call_params c !! k) <->
       k = "text" \/ exists x, (k, x) ∈ search_inputs a /\ truthy x = true) /\
  (forall a c, sends (pelias_structured client a) log c ->
     forall k, is_Some (call_params c !! k) <->
       k = "text" \/
       exists x, (k, x) ∈ structured_inputs a /\ truthy x = true) /\
  (forall a c, sends (pelias_reverse client a) log c ->
     forall k, is_Some (call_params c !! k) <->
       (k = "point.lon" \/ k = "point.lat") \/
       exists x, (k, x) ∈ reverse_inputs a /\ truthy x = true).
Proof.
  split; [|split].
  - intros a c H k. apply search_sends in H as (H & _).
    rewrite (build_is_Some _ _ _ k H), singleton_is_Some. reflexivity.
  - intros a c H k. apply structured_sends in H as (H & _).
    rewrite (build_is_Some _ _ _ k H), singleton_is_Some. reflexivity.
  - intros a c H k. apply reverse_sends in H as (H & _).
    apply reverse_params_inv in H as (_ & lon & lat & _ & _ & H).
    rewrite (build_is_Some _ _ _ k H), point_items_is_Some. reflexivity.
Qed.

(** C2. A truthy [rect_max_y] is stored, float-formatted, under the key
    that [rect_max_x] uses; a supplied [rect_max_x] is kept there only
    when [rect_max_y] is falsy. The mapping has no other key of a maximum
    bound, hence none for the maximum latitude. *)
Theorem C2_rect_max_y_shares_the_max_lon_key a :
  search_accepts a = true ->
  exists c,
    pelias_search client a log = (client_request client log c, log ++ [c]) /\
    (truthy (s_rect_max_y a) = true ->
       exists v, _format_float (s_rect_max_y a) = Ok v /\
         call_params c !! ("boundary.rect.max_lon" +:+ TAB) = Some (PStr v)) /\
    (truthy (s_rect_max_y a) = false -> truthy (s_rect_max_x a) = true ->
       exists v, _format_float (s_rect_max_x a) = Ok v /\
         call_params c !! ("boundary.rect.max_lon" +:+ TAB) = Some (PStr v)) /\
    (forall k, is_Some (call_params c !! k) -> contains "max" k = true ->
       k = "boundary.rect.max_lon" +:+ TAB).
Proof.
  intros Hacc. destruct (search_accepted a Hacc) as (c & Hrun & H & _).
  exists c. split; [exact Hrun|]. split; [|split].
  - intros Hy.
    destruct (build_written 4 _ _ _ _ _ _ H eq_refl eq_refl Hy eq_refl)
      as (w & Hw & ->).
    unfold formatted in Hw.
    destruct (_format_float (s_rect_max_y a)) as [v|]; [|discriminate].
    injection Hw as <-. eauto.
  - intros Hy Hx.
    destruct (build_skipped 4 _ _ _ _ ("boundary.rect.max_lon" +:+ TAB)
                H eq_refl Hy eq_refl) as (q & Hq & ->).
    destruct (build_written 3 _ _ _ _ _ _ Hq eq_refl eq_refl Hx eq_refl)
      as (w & Hw & ->).
    unfold formatted in Hw.
    destruct (_format_float (s_rect_max_x a)) as [v|]; [|discriminate].
    injection Hw as <-. eauto.
  - intros k Hk Hmax. apply (build_is_Some _ _ _ k H) in Hk.
    rewrite singleton_is_Some in Hk. destruct Hk as [->|(x & Hin & _)].
    + discriminate.
    + change (key_inputs (search_table a)) with (search_inputs a) in Hin.
      unfold search_inputs in Hin. each_input Hin.
Qed.

(** C10. For a truthy [circle_radius], reverse geocode stores
    [str(circle_radius)] under boundary.circle.radius, and free-text
    search stores the value itself under the same key. *)
Theorem C10_circle_radius_str_or_raw :
  (forall a, reverse_accepts a = true -> truthy (r_circle_radius a) = true ->
     exists c,
       pelias_reverse client a log =
       (client_request client log c, log ++ [c]) /\
       call_params c !! "boundary.circle.radius" =
       Some (PStr (py_str (r_circle_radius a)))) /\
  (forall a, search_accepts a = true -> truthy (s_circle_radius a) = true ->
     exists c,
       pelias_search client a log =
       (client_request client log c, log ++ [c]) /\
       call_params c !! "boundary.circle.radius" = Some (s_circle_radius a)).
Proof.
  split.
  - intros a Hacc Hr. destruct (reverse_accepted a Hacc) as (c & Hrun & H & _).
    exists c. split; [exact Hrun|].
    apply reverse_params_inv in H as (_ & lon & lat & _ & _ & H).
    destruct (build_written 0 _ _ _ _ _ _ H eq_refl eq_refl Hr eq_refl)
      as (w & Hw & ->).
    congruence.
  - intros a Hacc Hr. destruct (search_accepted a Hacc) as (c & Hrun & H & _).
    exists c. split; [exact Hrun|].
    destruct (build_written 6 _ _ _ _ _ _ H eq_refl eq_refl Hr eq_refl)
      as (w & Hw & ->).
    congruence.
Qed.

Lemma delegate_raise_inv path dry_run r e :
  delegate client path dry_run r log = (Raise e, log) -> r = Raise e.
Proof.
  destruct r as [p|e'].
  - rewrite delegate_ok. intros H. injection H as _ H.
    apply (f_equal length) in H. rewrite length_app in H. cbn in H. lia.
  - rewrite delegate_raise. congruence.
Qed.

Lemma search_raise_text a t e :
  pelias_search client a log = (Raise e, log) ->
  pelias_search client (search_with_text t a) log = (Raise e, log).
Proof.
  rewrite !search_tabular. intros H. apply delegate_raise_inv in H.
  change (search_table (search_with_text t a)) with (search_table a).
  rewrite (build_raise_indep _ _ {[ "text" := s_text (search_with_text t a) ]}
             _ H).
  reflexivity.
Qed.

Lemma structured_raise_text a t e :
  pelias_structured client a log = (Raise e, log) ->
  pelias_structured client (structured_with_text t a) log = (Raise e, log).
Proof.
  rewrite !structured_tabular. intros H. apply delegate_raise_inv in H.
  change (structured_table (structured_with_text t a))
    with (structured_table a).
  rewrite (build_raise_indep _ _
             {[ "text" := t_text (structured_with_text t a) ]} _ H).
  reflexivity.
Qed.

(** C9. Neither search validates [text]: an exception raised before the
    request for one value of [text] is raised for every other value, of
    any type, whether the arguments are accepted does not depend on
    [text], and the mapping handed to the client holds the value of
    [text] as it was given. When the other arguments are accepted, the
    request is made for every value of [text], of any type, with that
    value under the key text. *)
Theorem C9_text_is_not_validated :
  (forall a t e,
     pelias_search client a log = (Raise e, log) ->
     pelias_search client (search_with_text t a) log = (Raise e, log)) /\
  (forall a t,
     search_accepts (search_with_text t a) = search_accepts a) /\
  (forall a c, sends (pelias_search client a) log c ->
     call_params c !! "text" = Some (s_text a)) /\
  (forall a t e,
     pelias_structured client a log = (Raise e, log) ->
     pelias_structured client (structured_with_text t a) log =
     (Raise e, log)) /\
  (forall a t,
     structured_accepts (structured_with_text t a) = structured_accepts a) /\
  (forall a c, sends (pelias_structured client a) log c ->
     call_params c !! "text" = Some (t_text a)) /\
  (forall a t,
     search_accepts a = true ->
     exists c,
       pelias_search client (search_with_text t a) log =
       (client_request client log c, log ++ [c]) /\
       call_params c !! "text" = Some t) /\
  (forall a t,
     structured_accepts a = true ->
     exists c,
       pelias_structured client (structured_with_text t a) log =
       (client_request client log c, log ++ [c]) /\
       call_params c !! "text" = Some t).
Proof.
  split; [|split; [|split; [|split; [|split; [|split; [|split]]]]]].
  - apply search_raise_text.
  - reflexivity.
  - intros a c H. apply search_sends in H as (H & _).
    rewrite (build_lookup_ne _ _ _ "text" H eq_refl).
    apply lookup_singleton_eq.
  - apply structured_raise_text.
  - reflexivity.
  - intros a c H. apply structured_sends in H as (H & _).
    rewrite (build_lookup_ne _ _ _ "text" H eq_refl).
    apply lookup_singleton_eq.
  - intros a t Hacc.
    destruct (search_accepted (search_with_text t a) Hacc)
      as (c & Hrun & H & _).
    exists c. split; [exact Hrun|].
    rewrite (build_lookup_ne _ _ _ "text" H eq_refl).
    apply lookup_singleton_eq.
  - intros a t Hacc.
    destruct (structured_accepted (structured_with_text t a) Hacc)
      as (c & Hrun & H & _).
    exists c. split; [exact Hrun|].
    rewrite (build_lookup_ne _ _ _ "text" H eq_refl).
    apply lookup_singleton_eq.
Qed.

Lemma all_str_fmap toks : all_str (PStr <$> toks) = Ok toks.
Proof.
  induction toks as [|t toks IH]; [reflexivity|].
  rewrite fmap_cons. cbn [all_str as_str]. rewrite IH. reflexivity.
Qed.

Lemma comma_list_tokens v toks :
  _is_list v = true -> py_iter v = Ok (PStr <$> toks) ->
  _comma_list v = Ok (join "," toks).
Proof.
  intros Hl Hit. destruct (is_list_iter v Hl) as (xs & Hxs & Hv).
  assert (xs = PStr <$> toks) as -> by congruence.
  destruct Hv as [-> | ->]; cbn [_comma_list]; rewrite all_str_fmap;
    reflexivity.
Qed.

(** What the validation of a sequence of tokens yields. *)
Lemma checked_tokens_value type_msg fmt valid v toks w :
  _is_list v = true -> py_iter v = Ok (PStr <$> toks) ->
  checked_tokens type_msg fmt valid v = Ok w ->
  w = PStr (join "," toks).
Proof.
  intros Hl Hit. unfold checked_tokens.
  rewrite Hl, Hit, (comma_list_tokens v toks Hl Hit).
  cbn [raise_if negb mbind result_bind].
  destruct (forallb _ _); cbn [raise_if negb]; [|discriminate].
  intros H. injection H as <-. reflexivity.
Qed.

Lemma checked_tokens_invalid type_msg fmt valid v xs x :
  _is_list v = true -> py_iter v = Ok xs ->
  x ∈ xs -> py_in x valid = false ->
  checked_tokens type_msg fmt valid v =
  Raise (ValueError (str_format fmt (repr_str_list valid))).
Proof.
  intros Hl Hit Hx Hbad. unfold checked_tokens. rewrite Hl, Hit.
  cbn [raise_if negb mbind result_bind].
  destruct (forallb (fun x => py_in x valid) xs) eqn:Hall; [|reflexivity].
  rewrite forallb_forall in Hall. apply list_elem_of_In in Hx.
  rewrite (Hall x Hx) in Hbad. discriminate.
Qed.

Lemma nonempty_sequence_truthy v xs x :
  _is_list v = true -> py_iter v = Ok xs -> x ∈ xs -> truthy v = true.
Proof.
  intros Hl Hit Hx. destruct (is_list_iter v Hl) as (ys & Hys & Hv).
  assert (ys = xs) as -> by congruence.
  destruct xs; [inversion Hx|]. destruct Hv as [-> | ->]; reflexivity.
Qed.

(** C8. For a sequence of valid source tokens, the mapping handed to the
    client holds the tokens joined by commas in the given order under
    [sources] (and no such key for the empty sequence); a sequence with
    a token outside the four valid ones is refused with the
    [ValueError] that lists them. Free-text search and reverse geocode
    agree. *)
Theorem C8_sources_joined_or_refused :
  (forall a toks,
     _is_list (s_sources a) = true ->
     py_iter (s_sources a) = Ok (PStr <$> toks) ->
     Forall (fun t => t ∈ valid_sources) toks ->
     search_accepts a = true ->
     exists c,
       pelias_search client a log =
       (client_request client log c, log ++ [c]) /\
       call_params c !! "sources" =
       if truthy (s_sources a) then Some (PStr (join "," toks)) else None) /\
  (forall a xs x,
     _is_list (s_sources a) = true ->
     py_iter (s_sources a) = Ok xs ->
     x ∈ xs -> py_in x valid_sources = false ->
     point_ok (s_focus_point a) = true ->
     coord_ok (s_rect_min_x a) = true -> coord_ok (s_rect_min_y a) = true ->
     coord_ok (s_rect_max_x a) = true -> coord_ok (s_rect_max_y a) = true ->
     point_ok (s_circle_point a) = true ->
     pelias_search client a log =
     (Raise (ValueError
               "Source must be one or more of ['osm', 'oa', 'wof', 'gn']"),
      log)) /\
  (forall a toks,
     _is_list (r_sources a) = true ->
     py_iter (r_sources a) = Ok (PStr <$> toks) ->
     Forall (fun t => t ∈ valid_sources) toks ->
     reverse_accepts a = true ->
     exists c,
       pelias_reverse client a log =
       (client_request client log c, log ++ [c]) /\
       call_params c !! "sources" =
       if truthy (r_sources a) then Some (PStr (join "," toks)) else None) /\
  (forall a xs x,
     _is_list (r_sources a) = true ->
     py_iter (r_sources a) = Ok xs ->
     x ∈ xs -> py_in x valid_sources = false ->
     _is_list (r_point a) = true -> point_reads (r_point a) = true ->
     pelias_reverse client a log =
     (Raise (ValueError
               "Source must be one or more of ['osm', 'oa', 'wof', 'gn']"),
      log)).
Proof.
  split; [|split; [|split]].
  - intros a toks Hl Hit _ Hacc.
    destruct (search_accepted a Hacc) as (c & Hrun & H & _).
    exists c. split; [exact Hrun|].
    destruct (truthy (s_sources a)) eqn:Ht.
    + destruct (build_written 7 _ _ _ _ _ _ H eq_refl eq_refl Ht eq_refl)
        as (w & Hw & ->).
      rewrite (checked_tokens_value _ _ _ _ _ _ Hl Hit Hw). reflexivity.
    + destruct (build_skipped 7 _ _ _ _ "sources" H eq_refl Ht eq_refl)
        as (q & Hq & ->).
      rewrite (build_lookup_ne _ _ _ "sources" Hq eq_refl).
      apply lookup_singleton_ne. discriminate.
  - intros a xs x Hl Hit Hx Hbad Hfp Hx0 Hy0 Hx1 Hy1 Hcp.
    rewrite search_tabular.
    rewrite (build_rejects 7 (search_table a) _ _ "sources"
               (checked_sources (s_sources a))
               (ValueError (str_format "Source must be one or more of {}"
                              (repr_str_list valid_sources)))
               [] eq_refl).
    + reflexivity.
    + change (take 7 (search_table a))
        with (take 7 (search_table a) ++ []).
      unfold point_ok, coord_ok, point_reads in *.
      unfold search_table. cbn [take app forallb]. unfold slot_passes.
      cbn [forallb input writes snd]. unfold coordinate, formatted.
      rewrite ?is_ok_fmap, ?andb_true_r, Hfp, Hx0, Hy0, Hx1, Hy1, Hcp.
      cbn [is_ok andb]. rewrite ?orb_true_r. reflexivity.
    + exact (nonempty_sequence_truthy _ _ _ Hl Hit Hx).
    + reflexivity.
    + exact (checked_tokens_invalid _ _ _ _ _ _ Hl Hit Hx Hbad).
  - intros a toks Hl Hit _ Hacc.
    destruct (reverse_accepted a Hacc) as (c & Hrun & H & _).
    exists c. split; [exact Hrun|].
    apply reverse_params_inv in H as (_ & lon & lat & _ & _ & H).
    destruct (truthy (r_sources a)) eqn:Ht.
    + destruct (build_written 1 _ _ _ _ _ _ H eq_refl eq_refl Ht eq_refl)
        as (w & Hw & ->).
      rewrite (checked_tokens_value _ _ _ _ _ _ Hl Hit Hw). reflexivity.
    + destruct (build_skipped 1 _ _ _ _ "sources" H eq_refl Ht eq_refl)
        as (q & Hq & ->).
      rewrite (build_lookup_ne _ _ _ "sources" Hq eq_refl).
      rewrite !lookup_insert_ne by discriminate. apply lookup_empty.
  - intros a xs x Hl Hit Hx Hbad Hpl Hpr.
    rewrite reverse_tabular. unfold reverse_params. rewrite Hpl.
    unfold point_reads in Hpr. apply andb_prop in Hpr as [Hlon Hlat].
    apply is_ok_true in Hlon as [lon ->]. apply is_ok_true in Hlat as [lat ->].
    cbn [raise_if negb mbind result_bind].
    rewrite (build_rejects 1 (reverse_table a) _ _ "sources"
               (checked_sources (r_sources a))
               (ValueError (str_format "Source must be one or more of {}"
                              (repr_str_list valid_sources)))
               [] eq_refl).
    + reflexivity.
    + unfold reverse_table. cbn [take forallb]. unfold slot_passes.
      cbn [forallb input writes snd is_ok]. rewrite orb_true_r. reflexivity.
    + exact (nonempty_sequence_truthy _ _ _ Hl Hit Hx).
    + reflexivity.
    + exact (checked_tokens_invalid _ _ _ _ _ _ Hl Hit Hx Hbad).
Qed.

End Runs.

(** The keys the specification lists for the rectangle are never sent:
    none of them is a key of the table. *)
Lemma search_never_sends_bare_rect_keys client a log c :
  sends (pelias_search client a) log c ->
  call_params c !! "boundary.rect.min_lon" = None /\
  call_params c !! "boundary.rect.min_lat" = None /\
  call_params c !! "boundary.rect.max_lon" = None.
Proof.
  intros H. apply search_sends in H as (H & _).
  rewrite (build_lookup_ne _ _ _ "boundary.rect.min_lon" H eq_refl),
    (build_lookup_ne _ _ _ "boundary.rect.min_lat" H eq_refl),
    (build_lookup_ne _ _ _ "boundary.rect.max_lon" H eq_refl).
  repeat split; apply lookup_singleton_ne; discriminate.
Qed.

(** X15. [pelias_reverse] checks [point] before anything else: a point
    that is not a sequence is refused with this [TypeError], without a
    request, whatever the other arguments are. *)
Lemma reverse_point_not_list client a log :
  _is_list (r_point a) = false ->
  pelias_reverse client a log =
  (Raise (TypeError "Point must be a list/tuple of coordinates."), log).
Proof.
  intros H. rewrite reverse_tabular. unfold reverse_params. rewrite H.
  reflexivity.
Qed.

(** ** Further properties of the three operations *)

Lemma sends_run (m : M pyval) client path dry_run r log c :
  (forall l, m l = delegate client path dry_run r l) ->
  sends m log c ->
  r = Ok (call_params c) /\ call_path c = path /\ call_dry_run c = dry_run /\
  m log = (client_request client log c, log ++ [c]).
Proof.
  intros Hm H. unfold sends in H. rewrite Hm in H |- *.
  apply sends_delegate in H as (p & -> & ->). repeat split.
Qed.

(** X1. Whenever an operation hands a call to the client, the call goes
    to the fixed path of the operation with [dry_run] as it was given,
    it is the only call of the run, and the operation returns what the
    client answers, response or exception, unchanged. *)
Theorem call_path_dry_run_and_result client log :
  (forall a c, sends (pelias_search client a) log c ->
     call_path c = "/geocode/search" /\ call_dry_run c = s_dry_run a /\
     pelias_search client a log = (client_request client log c, log ++ [c])) /\
  (forall a c, sends (pelias_structured client a) log c ->
     call_path c = "/geocode/search/structured" /\
     call_dry_run c = t_dry_run a /\
     pelias_structured client a log =
     (client_request client log c, log ++ [c])) /\
  (forall a c, sends (pelias_reverse client a) log c ->
     call_path c = "/geocode/reverse" /\ call_dry_run c = r_dry_run a /\
     pelias_reverse client a log = (client_request client log c, log ++ [c])).
Proof.
  split; [|split]; intros a c H.
  - destruct (sends_run _ _ _ _ _ _ _ (search_tabular client a) H)
      as (_ & ? & ? & ?). auto.
  - destruct (sends_run _ _ _ _ _ _ _ (structured_tabular client a) H)
      as (_ & ? & ? & ?). auto.
  - destruct (sends_run _ _ _ _ _ _ _ (reverse_tabular client a) H)
      as (_ & ? & ? & ?). auto.
Qed.

Lemma delegate_stateless client client' path dry_run r log log' :
  (forall c, sends (delegate client path dry_run r) log c ->
     sends (delegate client' path dry_run r) log' c) /\
  (forall e, delegate client path dry_run r log = (Raise e, log) ->
     delegate client' path dry_run r log' = (Raise e, log')).
Proof.
  split.
  - intros c H. apply sends_delegate in H as (p & -> & ->). reflexivity.
  - intros e H. destruct r as [p|e'].
    + rewrite delegate_ok in H. injection H as _ H.
      apply (f_equal length) in H. rewrite length_app in H. cbn in H. lia.
    + rewrite delegate_raise in H |- *. congruence.
Qed.

(** X2. The operations keep no state and do not look at the client: the
    call that a run makes, or the exception it raises without a call, is
    the same with any other client and after any other history of
    calls. *)
Theorem outcome_independent_of_client_and_history client client' log log' :
  (forall a c, sends (pelias_search client a) log c ->
     sends (pelias_search client' a) log' c) /\
  (forall a e, pelias_search client a log = (Raise e, log) ->
     pelias_search client' a log' = (Raise e, log')) /\
  (forall a c, sends (pelias_structured client a) log c ->
     sends (pelias_structured client' a) log' c) /\
  (forall a e, pelias_structured client a log = (Raise e, log) ->
     pelias_structured client' a log' = (Raise e, log')) /\
  (forall a c, sends (pelias_reverse client a) log c ->
     sends (pelias_reverse client' a) log' c) /\
  (forall a e, pelias_reverse client a log = (Raise e, log) ->
     pelias_reverse client' a log' = (Raise e, log')).
Proof.
  split; [|split; [|split; [|split; [|split]]]]; intros a x;
    unfold sends; rewrite ?search_tabular, ?structured_tabular,
      ?reverse_tabular;
    apply delegate_stateless.
Qed.

(** X3. Every mapping that [pelias_reverse] hands to the client holds,
    under point.lon and point.lat, the formatted elements 0 and 1 of
    [point], which is a sequence; no optional argument replaces them. *)
Theorem reverse_sends_the_formatted_point client log a c :
  sends (pelias_reverse client a) log c ->
  _is_list (r_point a) = true /\
  exists lon lat,
    getitem (r_point a) 0 ≫= _format_float = Ok lon /\
    getitem (r_point a) 1 ≫= _format_float = Ok lat /\
    call_params c !! "point.lon" = Some (PStr lon) /\
    call_params c !! "point.lat" = Some (PStr lat).
Proof.
  intros H.
  destruct (sends_run _ _ _ _ _ _ _ (reverse_tabular client a) H) as (Hp & _).
  apply reverse_params_inv in Hp as (Hl & lon & lat & Hlon & Hlat & Hb).
  split; [exact Hl|]. exists lon, lat. split; [exact Hlon|].
  split; [exact Hlat|].
  rewrite (build_lookup_ne _ _ _ "point.lon" Hb eq_refl),
    (build_lookup_ne _ _ _ "point.lat" Hb eq_refl).
  split; [|apply lookup_insert_eq].
  rewrite lookup_insert_ne by discriminate. apply lookup_insert_eq.
Qed.

Lemma forallb_take_passes n (slots : list slot) :
  forallb slot_passes (take n slots) =
  forallb id (take n (slot_passes <$> slots)).
Proof.
  revert n. induction slots as [|sl slots IH]; intros [|n]; try reflexivity.
  rewrite fmap_cons. cbn [take forallb id]. rewrite IH. reflexivity.
Qed.

Ltac slot_list :=
  cbn [fmap list_fmap]; unfold slot_passes; cbn [forallb input writes snd];
  unfold coordinate, formatted, checked_sources, checked_layers;
  rewrite ?is_ok_fmap, ?checked_tokens_is_ok, ?checked_str_is_ok;
  cbn [is_ok]; rewrite ?andb_true_r, ?orb_true_r;
  reflexivity.

Lemma search_slots_pass a :
  slot_passes <$> search_table a =
  [point_ok (s_focus_point a); coord_ok (s_rect_min_x a);
   coord_ok (s_rect_min_y a); coord_ok (s_rect_max_x a);
   coord_ok (s_rect_max_y a); point_ok (s_circle_point a); true;
   tokens_ok valid_sources (s_sources a);
   tokens_ok valid_layers (s_layers a); str_ok (s_country a); true].
Proof.
  unfold search_table, point_ok, coord_ok, tokens_ok, str_ok, point_reads.
  slot_list.
Qed.

Lemma structured_slots_pass a :
  slot_passes <$> structured_table a =
  (fun f => str_ok f.2) <$> structured_fields a.
Proof. unfold structured_table, structured_fields, str_ok. slot_list. Qed.

Lemma reverse_slots_pass a :
  slot_passes <$> reverse_table a =
  [true; tokens_ok valid_sources (r_sources a);
   tokens_ok valid_layers (r_layers a); str_ok (r_country a); true].
Proof. unfold reverse_table, tokens_ok, str_ok. slot_list. Qed.

(** The exception of the first slot that fails is the outcome of the
    run. *)
Lemma search_rejects_at i client a log sl k r e ws :
  search_table a !! i = Some sl ->
  forallb id (take i (slot_passes <$> search_table a)) = true ->
  truthy (input sl) = true ->
  writes sl = (k, r) :: ws ->
  r = Raise e ->
  pelias_search client a log = (Raise e, log).
Proof.
  intros Hi Hpre Ht Hw Hr. rewrite <- forallb_take_passes in Hpre.
  rewrite search_tabular,
    (build_rejects i _ _ _ k r e ws Hi Hpre Ht Hw Hr).
  reflexivity.
Qed.

Lemma structured_rejects_at i client a log sl k r e ws :
  structured_table a !! i = Some sl ->
  forallb id (take i (slot_passes <$> structured_table a)) = true ->
  truthy (input sl) = true ->
  writes sl = (k, r) :: ws ->
  r = Raise e ->
  pelias_structured client a log = (Raise e, log).
Proof.
  intros Hi Hpre Ht Hw Hr. rewrite <- forallb_take_passes in Hpre.
  rewrite structured_tabular,
    (build_rejects i _ _ _ k r e ws Hi Hpre Ht Hw Hr).
  reflexivity.
Qed.

Lemma reverse_rejects_at i client a log sl k r e ws :
  _is_list (r_point a) = true ->
  point_reads (r_point a) = true ->
  reverse_table a !! i = Some sl ->
  forallb id (take i (slot_passes <$> reverse_table a)) = true ->
  truthy (input sl) = true ->
  writes sl = (k, r) :: ws ->
  r = Raise e ->
  pelias_reverse client a log = (Raise e, log).
Proof.
  intros Hpl Hpr Hi Hpre Ht Hw Hr. rewrite <- forallb_take_passes in Hpre.
  rewrite reverse_tabular. unfold reverse_params. rewrite Hpl.
  unfold point_reads in Hpr. apply andb_prop in Hpr as [Hlon Hlat].
  apply is_ok_true in Hlon as [lon ->]. apply is_ok_true in Hlat as [lat ->].
  cbn [raise_if negb mbind result_bind].
  rewrite (build_rejects i _ _ _ k r e ws Hi Hpre Ht Hw Hr).
  reflexivity.
Qed.

Lemma checked_tokens_not_list type_msg fmt valid v :
  _is_list v = false ->
  checked_tokens type_msg fmt valid v = Raise (TypeError type_msg).
Proof. intros H. unfold checked_tokens. rewrite H. reflexivity. Qed.

Lemma checked_str_not_str msg v :
  isinstance_str v = false -> checked_str msg v = Raise (TypeError msg).
Proof. intros H. unfold checked_str. rewrite H. reflexivity. Qed.

Lemma checked_str_value msg v w : checked_str msg v = Ok w -> w = v.
Proof.
  unfold checked_str. destruct (isinstance_str v); cbn; congruence.
Qed.

Section Coverage.

Variable client : Client.
Variable log : list call.

(** X4. For a sequence of valid layer tokens, the mapping handed to the
    client holds the tokens joined by commas, in the given order, under
    [layers] (and no such key for the empty sequence), in free-text
    search and in reverse geocode alike. *)
Theorem layers_joined_in_order :
  (forall a toks,
     _is_list (s_layers a) = true ->
     py_iter (s_layers a) = Ok (PStr <$> toks) ->
     search_accepts a = true ->
     exists c,
       pelias_search client a log =
       (client_request client log c, log ++ [c]) /\
       call_params c !! "layers" =
       if truthy (s_layers a) then Some (PStr (join "," toks)) else None) /\
  (forall a toks,
     _is_list (r_layers a) = true ->
     py_iter (r_layers a) = Ok (PStr <$> toks) ->
     reverse_accepts a = true ->
     exists c,
       pelias_reverse client a log =
       (client_request client log c, log ++ [c]) /\
       call_params c !! "layers" =
       if truthy (r_layers a) then Some (PStr (join "," toks)) else None).
Proof.
  split.
  - intros a toks Hl Hit Hacc.
    destruct (search_accepted client log a Hacc) as (c & Hrun & H & _).
    exists c. split; [exact Hrun|].
    destruct (truthy (s_layers a)) eqn:Ht.
    + destruct (build_written 8 _ _ _ _ _ _ H eq_refl eq_refl Ht eq_refl)
        as (w & Hw & ->).
      rewrite (checked_tokens_value _ _ _ _ _ _ Hl Hit Hw). reflexivity.
    + destruct (build_skipped 8 _ _ _ _ "layers" H eq_refl Ht eq_refl)
        as (q & Hq & ->).
      rewrite (build_lookup_ne _ _ _ "layers" Hq eq_refl).
      apply lookup_singleton_ne. discriminate.
  - intros a toks Hl Hit Hacc.
    destruct (reverse_accepted client log a Hacc) as (c & Hrun & H & _).
    exists c. split; [exact Hrun|].
    apply reverse_params_inv in H as (_ & lon & lat & _ & _ & H).
    destruct (truthy (r_layers a)) eqn:Ht.
    + destruct (build_written 2 _ _ _ _ _ _ H eq_refl eq_refl Ht eq_refl)
        as (w & Hw & ->).
      rewrite (checked_tokens_value _ _ _ _ _ _ Hl Hit Hw). reflexivity.
    + destruct (build_skipped 2 _ _ _ _ "layers" H eq_refl Ht eq_refl)
        as (q & Hq & ->).
      rewrite (build_lookup_ne _ _ _ "layers" Hq eq_refl).
      rewrite !lookup_insert_ne by discriminate. apply lookup_empty.
Qed.

(** X5. A truthy [sources] or [layers] that is not a sequence, a bare
    string for instance, is refused with its [TypeError] and without a
    request, once the statements before its check have passed. *)
Theorem token_arguments_must_be_sequences :
  (forall a,
     truthy (s_sources a) = true -> _is_list (s_sources a) = false ->
     point_ok (s_focus_point a) = true ->
     coord_ok (s_rect_min_x a) = true -> coord_ok (s_rect_min_y a) = true ->
     coord_ok (s_rect_max_x a) = true -> coord_ok (s_rect_max_y a) = true ->
     point_ok (s_circle_point a) = true ->
     pelias_search client a log =
     (Raise (TypeError "Data source invalid."), log)) /\
  (forall a,
     truthy (s_layers a) = true -> _is_list (s_layers a) = false ->
     point_ok (s_focus_point a) = true ->
     coord_ok (s_rect_min_x a) = true -> coord_ok (s_rect_min_y a) = true ->
     coord_ok (s_rect_max_x a) = true -> coord_ok (s_rect_max_y a) = true ->
     point_ok (s_circle_point a) = true ->
     tokens_ok valid_sources (s_sources a) = true ->
     pelias_search client a log =
     (Raise (TypeError "Invalid layer type for geocoding."), log)) /\
  (forall a,
     truthy (r_sources a) = true -> _is_list (r_sources a) = false ->
     _is_list (r_point a) = true -> point_reads (r_point a) = true ->
     pelias_reverse client a log =
     (Raise (TypeError "Data source invalid."), log)) /\
  (forall a,
     truthy (r_layers a) = true -> _is_list (r_layers a) = false ->
     _is_list (r_point a) = true -> point_reads (r_point a) = true ->
     tokens_ok valid_sources (r_sources a) = true ->
     pelias_reverse client a log =
     (Raise (TypeError "Invalid layer type for geocoding."), log)).
Proof.
  split; [|split; [|split]].
  - intros a Ht Hl Hfp Hx0 Hy0 Hx1 Hy1 Hcp.
    eapply (search_rejects_at 7);
      [reflexivity | | exact Ht | reflexivity
      | exact (checked_tokens_not_list _ _ _ _ Hl)].
    rewrite search_slots_pass. cbn [take forallb id].
    rewrite Hfp, Hx0, Hy0, Hx1, Hy1, Hcp. reflexivity.
  - intros a Ht Hl Hfp Hx0 Hy0 Hx1 Hy1 Hcp Hs.
    eapply (search_rejects_at 8);
      [reflexivity | | exact Ht | reflexivity
      | exact (checked_tokens_not_list _ _ _ _ Hl)].
    rewrite search_slots_pass. cbn [take forallb id].
    rewrite Hfp, Hx0, Hy0, Hx1, Hy1, Hcp, Hs. reflexivity.
  - intros a Ht Hl Hpl Hpr.
    eapply (reverse_rejects_at 1);
      [exact Hpl | exact Hpr | reflexivity | | exact Ht | reflexivity
      | exact (checked_tokens_not_list _ _ _ _ Hl)].
    rewrite reverse_slots_pass. reflexivity.
  - intros a Ht Hl Hpl Hpr Hs.
    eapply (reverse_rejects_at 2);
      [exact Hpl | exact Hpr | reflexivity | | exact Ht | reflexivity
      | exact (checked_tokens_not_list _ _ _ _ Hl)].
    rewrite reverse_slots_pass. cbn [take forallb id]. rewrite Hs.
    reflexivity.
Qed.

(** X6. A truthy [country] that is not a string is refused with
    [TypeError('Country must be a string.')] and without a request, once
    the statements before its check have passed; in an accepted call a
    truthy [country] is a string and is sent as it was given. *)
Theorem country_is_a_string_sent_as_given :
  (forall a,
     truthy (s_country a) = true -> isinstance_str (s_country a) = false ->
     point_ok (s_focus_point a) = true ->
     coord_ok (s_rect_min_x a) = true -> coord_ok (s_rect_min_y a) = true ->
     coord_ok (s_rect_max_x a) = true -> coord_ok (s_rect_max_y a) = true ->
     point_ok (s_circle_point a) = true ->
     tokens_ok valid_sources (s_sources a) = true ->
     tokens_ok valid_layers (s_layers a) = true ->
     pelias_search client a log =
     (Raise (TypeError "Country must be a string."), log)) /\
  (forall a,
     truthy (r_country a) = true -> isinstance_str (r_country a) = false ->
     _is_list (r_point a) = true -> point_reads (r_point a) = true ->
     tokens_ok valid_sources (r_sources a) = true ->
     tokens_ok valid_layers (r_layers a) = true ->
     pelias_reverse client a log =
     (Raise (TypeError "Country must be a string."), log)) /\
  (forall a c, sends (pelias_search client a) log c ->
     truthy (s_country a) = true ->
     isinstance_str (s_country a) = true /\
     call_params c !! "country" = Some (s_country a)) /\
  (forall a c, sends (pelias_reverse client a) log c ->
     truthy (r_country a) = true ->
     isinstance_str (r_country a) = true /\
     call_params c !! "country" = Some (r_country a)).
Proof.
  split; [|split; [|split]].
  - intros a Ht Hs Hfp Hx0 Hy0 Hx1 Hy1 Hcp Hso Hla.
    eapply (search_rejects_at 9);
      [reflexivity | | exact Ht | reflexivity
      | exact (checked_str_not_str _ _ Hs)].
    rewrite search_slots_pass. cbn [take forallb id].
    rewrite Hfp, Hx0, Hy0, Hx1, Hy1, Hcp, Hso, Hla. reflexivity.
  - intros a Ht Hs Hpl Hpr Hso Hla.
    eapply (reverse_rejects_at 3);
      [exact Hpl | exact Hpr | reflexivity | | exact Ht | reflexivity
      | exact (checked_str_not_str _ _ Hs)].
    rewrite reverse_slots_pass. cbn [take forallb id]. rewrite Hso, Hla.
    reflexivity.
  - intros a c H Ht. apply search_sends in H as (H & _).
    destruct (build_written 9 _ _ _ _ _ _ H eq_refl eq_refl Ht eq_refl)
      as (w & Hw & ->).
    pose proof (checked_str_is_ok "Country must be a string." (s_country a))
      as Hok.
    rewrite Hw in Hok. rewrite (checked_str_value _ _ _ Hw). auto.
  - intros a c H Ht. apply reverse_sends in H as (H & _).
    apply reverse_params_inv in H as (_ & lon & lat & _ & _ & H).
    destruct (build_written 3 _ _ _ _ _ _ H eq_refl eq_refl Ht eq_refl)
      as (w & Hw & ->).
    pose proof (checked_str_is_ok "Country must be a string." (r_country a))
      as Hok.
    rewrite Hw in Hok. rewrite (checked_str_value _ _ _ Hw). auto.
Qed.

(** X7. [size] is not checked: whenever a call is made with a truthy
    [size], of whatever type, the mapping holds that very value under
    [size], in free-text search and in reverse geocode. *)
Theorem size_is_sent_as_given :
  (forall a c, sends (pelias_search client a) log c ->
     truthy (s_size a) = true ->
     call_params c !! "size" = Some (s_size a)) /\
  (forall a c, sends (pelias_reverse client a) log c ->
     truthy (r_size a) = true ->
     call_params c !! "size" = Some (r_size a)).
Proof.
  split.
  - intros a c H Ht. apply search_sends in H as (H & _).
    destruct (build_written 10 _ _ _ _ _ _ H eq_refl eq_refl Ht eq_refl)
      as (w & Hw & ->).
    congruence.
  - intros a c H Ht. apply reverse_sends in H as (H & _).
    apply reverse_params_inv in H as (_ & lon & lat & _ & _ & H).
    destruct (build_written 4 _ _ _ _ _ _ H eq_refl eq_refl Ht eq_refl)
      as (w & Hw & ->).
    congruence.
Qed.

Lemma apply_slot_pair sl q q' k1 e1 k2 e2 :
  apply_slot sl q = Ok q' ->
  writes sl = [(k1, e1); (k2, e2)] ->
  truthy (input sl) = true ->
  k1 <> k2 ->
  exists v1 v2, e1 = Ok v1 /\ e2 = Ok v2 /\
    q' !! k1 = Some v1 /\ q' !! k2 = Some v2.
Proof.
  unfold apply_slot. intros H Hw Ht Hne. rewrite Hw, Ht, !store_unfold in H.
  apply bind_ok_inv in H as (v1 & -> & H).
  apply bind_ok_inv in H as (v2 & -> & H). injection H as <-.
  exists v1, v2. repeat split.
  - rewrite lookup_insert_ne by congruence. apply lookup_insert_eq.
  - apply lookup_insert_eq.
Qed.

Lemma coordinate_ok_inv v i w :
  coordinate v i = Ok w ->
  exists s, getitem v i ≫= _format_float = Ok s /\ w = PStr s.
Proof.
  unfold coordinate.
  destruct (getitem v i ≫= _format_float) as [s|]; [|discriminate].
  intros H. injection H as <-. eauto.
Qed.

(** The two items of a point slot after the table. *)
Lemma build_point i slots sl p p' v k1 k2 :
  build slots p = Ok p' ->
  slots !! i = Some sl ->
  writes sl = [(k1, coordinate v 0); (k2, coordinate v 1)] ->
  truthy (input sl) = true ->
  k1 <> k2 ->
  forallb (fun s => negb (key_in k1 s)) (drop (S i) slots) = true ->
  forallb (fun s => negb (key_in k2 s)) (drop (S i) slots) = true ->
  exists lon lat,
    getitem v 0 ≫= _format_float = Ok lon /\
    getitem v 1 ≫= _format_float = Ok lat /\
    p' !! k1 = Some (PStr lon) /\ p' !! k2 = Some (PStr lat).
Proof.
  intros H Hi Hw Ht Hne H1 H2.
  destruct (build_at _ _ _ _ _ k1 H Hi H1) as (q & q' & Hq & Hq' & ->).
  destruct (build_at _ _ _ _ _ k2 H Hi H2) as (r & r' & Hr & Hr' & ->).
  assert (r = q) as -> by congruence. assert (r' = q') as -> by congruence.
  destruct (apply_slot_pair _ _ _ _ _ _ _ Hq' Hw Ht Hne)
    as (v1 & v2 & Hv1 & Hv2 & -> & ->).
  apply coordinate_ok_inv in Hv1 as (lon & Hlon & ->).
  apply coordinate_ok_inv in Hv2 as (lat & Hlat & ->).
  exists lon, lat. auto.
Qed.

(** X8. In every call that free-text search makes, a truthy
    [focus_point] or [circle_point] gives its elements 0 and 1,
    float-formatted, under its lon and lat keys, and a truthy
    [rect_min_x] or [rect_min_y] is float-formatted under its own key. *)
Theorem search_coordinates_are_formatted a c :
  sends (pelias_search client a) log c ->
  (truthy (s_focus_point a) = true ->
     exists lon lat,
       getitem (s_focus_point a) 0 ≫= _format_float = Ok lon /\
       getitem (s_focus_point a) 1 ≫= _format_float = Ok lat /\
       call_params c !! "focus.point.lon" = Some (PStr lon) /\
       call_params c !! "focus.point.lat" = Some (PStr lat)) /\
  (truthy (s_circle_point a) = true ->
     exists lon lat,
       getitem (s_circle_point a) 0 ≫= _format_float = Ok lon /\
       getitem (s_circle_point a) 1 ≫= _format_float = Ok lat /\
       call_params c !! "boundary.circle.lon" = Some (PStr lon) /\
       call_params c !! "boundary.circle.lat" = Some (PStr lat)) /\
  (truthy (s_rect_min_x a) = true ->
     exists v, _format_float (s_rect_min_x a) = Ok v /\
       call_params c !! ("boundary.rect.min_lon" +:+ TAB) = Some (PStr v)) /\
  (truthy (s_rect_min_y a) = true ->
     exists v, _format_float (s_rect_min_y a) = Ok v /\
       call_params c !! ("boundary.rect.min_lat" +:+ TAB) = Some (PStr v)).
Proof.
  intros H. apply search_sends in H as (H & _).
  split; [|split; [|split]]; intros Ht.
  - apply (build_point 0 _ _ _ _ _ _ _ H eq_refl eq_refl Ht);
      [discriminate | reflexivity | reflexivity].
  - apply (build_point 5 _ _ _ _ _ _ _ H eq_refl eq_refl Ht);
      [discriminate | reflexivity | reflexivity].
  - destruct (build_written 1 _ _ _ _ _ _ H eq_refl eq_refl Ht eq_refl)
      as (w & Hw & ->).
    unfold formatted in Hw.
    destruct (_format_float (s_rect_min_x a)) as [v|]; [|discriminate].
    injection Hw as <-. eauto.
  - destruct (build_written 2 _ _ _ _ _ _ H eq_refl eq_refl Ht eq_refl)
      as (w & Hw & ->).
    unfold formatted in Hw.
    destruct (_format_float (s_rect_min_y a)) as [v|]; [|discriminate].
    injection Hw as <-. eauto.
Qed.

Lemma forallb_id_take_fmap {A} (f : A -> bool) n (l : list A) :
  forallb id (take n (f <$> l)) = forallb f (take n l).
Proof.
  revert n. induction l as [|x l IH]; intros [|n]; try reflexivity.
  rewrite fmap_cons. cbn [take forallb id]. rewrite IH. reflexivity.
Qed.

Ltac field_at i H Ht :=
  let w := fresh "w" in
  let Hw := fresh "Hw" in
  let Hok := fresh "Hok" in
  destruct (build_written i _ _ _ _ _ _ H eq_refl eq_refl Ht eq_refl)
    as (w & Hw & ->);
  split;
  [ match type of Hw with
    | checked_str ?m ?v = _ =>
        pose proof (checked_str_is_ok m v) as Hok; rewrite Hw in Hok;
        symmetry; exact Hok
    end
  | rewrite (checked_str_value _ _ _ Hw); reflexivity ].

(** X9. In every call that structured search makes, each truthy field is
    a string and is sent, as it was given, under the key of its own
    name. *)
Theorem structured_fields_are_sent_as_given a c :
  sends (pelias_structured client a) log c ->
  forall k msg x, (k, msg, x) ∈ structured_fields a -> truthy x = true ->
    isinstance_str x = true /\ call_params c !! k = Some x.
Proof.
  intros H k msg x Hin Ht. apply structured_sends in H as (H & _).
  unfold structured_fields in Hin.
  apply elem_of_cons in Hin as [Heq|Hin];
    [injection Heq as -> -> ->; field_at 0%nat H Ht|].
  apply elem_of_cons in Hin as [Heq|Hin];
    [injection Heq as -> -> ->; field_at 1%nat H Ht|].
  apply elem_of_cons in Hin as [Heq|Hin];
    [injection Heq as -> -> ->; field_at 2%nat H Ht|].
  apply elem_of_cons in Hin as [Heq|Hin];
    [injection Heq as -> -> ->; field_at 3%nat H Ht|].
  apply elem_of_cons in Hin as [Heq|Hin];
    [injection Heq as -> -> ->; field_at 4%nat H Ht|].
  apply elem_of_cons in Hin as [Heq|Hin];
    [injection Heq as -> -> ->; field_at 5%nat H Ht|].
  apply elem_of_cons in Hin as [Heq|Hin];
    [injection Heq as -> -> ->; field_at 6%nat H Ht|].
  apply elem_of_cons in Hin as [Heq|Hin];
    [injection Heq as -> -> ->; field_at 7%nat H Ht|].
  apply elem_of_nil in Hin. destruct Hin.
Qed.

Ltac bad_field n Hi Hpre Ht Hs :=
  injection Hi as <- <- <-;
  eapply (structured_rejects_at n);
    [reflexivity
    | rewrite structured_slots_pass, forallb_id_take_fmap; exact Hpre
    | exact Ht | reflexivity | exact (checked_str_not_str _ _ Hs)].

(** X10. Structured search checks its fields in the order address,
    neighbourhood, borough, locality, county, region, postalcode,
    country: the first truthy field that is not a string is refused
    with the [TypeError] that names it, and no request is made. *)
Theorem structured_first_bad_field_is_reported a i k msg x :
  structured_fields a !! i = Some (k, msg, x) ->
  forallb (fun f => str_ok f.2) (take i (structured_fields a)) = true ->
  truthy x = true -> isinstance_str x = false ->
  pelias_structured client a log = (Raise (TypeError msg), log).
Proof.
  intros Hi Hpre Ht Hs.
  destruct i as [|i]; [bad_field 0%nat Hi Hpre Ht Hs|].
  destruct i as [|i]; [bad_field 1%nat Hi Hpre Ht Hs|].
  destruct i as [|i]; [bad_field 2%nat Hi Hpre Ht Hs|].
  destruct i as [|i]; [bad_field 3%nat Hi Hpre Ht Hs|].
  destruct i as [|i]; [bad_field 4%nat Hi Hpre Ht Hs|].
  destruct i as [|i]; [bad_field 5%nat Hi Hpre Ht Hs|].
  destruct i as [|i]; [bad_field 6%nat Hi Hpre Ht Hs|].
  destruct i as [|i]; [bad_field 7%nat Hi Hpre Ht Hs|].
  discriminate Hi.
Qed.

Lemma build_all_falsy slots p :
  forallb (fun sl => negb (truthy (input sl))) slots = true ->
  build slots p = Ok p.
Proof.
  induction slots as [|sl slots IH]; [reflexivity|]. cbn [forallb].
  intros H. apply andb_prop in H as [Hsl H]. rewrite build_unfold.
  unfold apply_slot. destruct (truthy (input sl)); [discriminate|].
  exact (IH H).
Qed.

Ltac all_falsy H :=
  cbn [forallb snd] in H;
  repeat (let Hx := fresh "Hx" in apply andb_prop in H as [Hx H]);
  cbn [forallb input];
  repeat match goal with
         | Hx : negb (truthy ?v) = true |- _ => rewrite ?Hx; clear Hx
         end;
  reflexivity.

(** X11. An optional argument that is falsy, of whatever type ([None],
    0, an empty string, an empty sequence), is neither checked nor sent:
    when all of them are falsy the run is the run with every optional
    parameter omitted. *)
Theorem falsy_arguments_are_ignored :
  (forall a,
     forallb (fun kx => negb (truthy kx.2)) (search_inputs a) = true ->
     pelias_search client a log =
     pelias_search client (search_only (s_text a) (s_dry_run a)) log) /\
  (forall a,
     forallb (fun kx => negb (truthy kx.2)) (structured_inputs a) = true ->
     pelias_structured client a log =
     pelias_structured client (structured_only (t_text a) (t_dry_run a))
       log) /\
  (forall a,
     forallb (fun kx => negb (truthy kx.2)) (reverse_inputs a) = true ->
     pelias_reverse client a log =
     pelias_reverse client (reverse_only (r_point a) (r_dry_run a)) log).
Proof.
  split; [|split].
  - intros a H. rewrite !search_tabular.
    rewrite (build_all_falsy (search_table a)); [reflexivity|].
    unfold search_inputs in H. unfold search_table. all_falsy H.
  - intros a H. rewrite !structured_tabular.
    rewrite (build_all_falsy (structured_table a)); [reflexivity|].
    unfold structured_inputs in H. unfold structured_table. all_falsy H.
  - intros a H. rewrite !reverse_tabular.
    assert (forall p, build (reverse_table a) p = Ok p) as Hb.
    { intros p. apply build_all_falsy.
      unfold reverse_inputs in H. unfold reverse_table. all_falsy H. }
    unfold reverse_params. cbn [reverse_only r_point r_dry_run].
    destruct (raise_if (negb (_is_list (r_point a))) _); [|reflexivity].
    destruct (getitem (r_point a) 0 ≫= _format_float); [|reflexivity].
    destruct (getitem (r_point a) 1 ≫= _format_float); [|reflexivity].
    cbn [mbind result_bind]. rewrite Hb. reflexivity.
Qed.

Lemma coordinate_raise v i e :
  getitem v i = Raise e -> coordinate v i = Raise e.
Proof. intros H. unfold coordinate. rewrite H. reflexivity. Qed.

Lemma short_point_coordinates seq x :
  seq = PList [x] \/ seq = PTuple [x] ->
  is_ok (_format_float x) = true ->
  truthy seq = true /\ _is_list seq = true /\
  (exists lon, getitem seq 0 ≫= _format_float = Ok lon) /\
  getitem seq 1 ≫= _format_float = Raise (IndexError "index out of range").
Proof.
  intros Hseq Hx. apply is_ok_true in Hx as [lon Hx].
  destruct Hseq as [-> | ->]; repeat split; try (exists lon; exact Hx).
Qed.

(** X12. The subscripts [point[0]] and [point[1]] are not guarded. A
    truthy [focus_point] that cannot be subscripted with 0 (a number, a
    dict without that key) is refused with the exception of the
    subscript, and a sequence of one number, as [focus_point] of
    free-text search or as [point] of reverse geocode, with an
    [IndexError]; no request is made. *)
Theorem point_subscript_errors_propagate :
  (forall a e,
     truthy (s_focus_point a) = true ->
     getitem (s_focus_point a) 0 = Raise e ->
     pelias_search client a log = (Raise e, log)) /\
  (forall a x,
     s_focus_point a = PList [x] \/ s_focus_point a = PTuple [x] ->
     is_ok (_format_float x) = true ->
     exists msg, pelias_search client a log = (Raise (IndexError msg), log)) /\
  (forall a x,
     r_point a = PList [x] \/ r_point a = PTuple [x] ->
     is_ok (_format_float x) = true ->
     exists msg, pelias_reverse client a log = (Raise (IndexError msg), log)).
Proof.
  split; [|split].
  - intros a e Ht He.
    eapply (search_rejects_at 0);
      [reflexivity | reflexivity | exact Ht | reflexivity
      | exact (coordinate_raise _ _ _ He)].
  - intros a x Hseq Hx.
    destruct (short_point_coordinates _ _ Hseq Hx)
      as (Ht & _ & (lon & Hlon) & Hlat).
    eexists. rewrite search_tabular. unfold search_table.
    rewrite build_unfold. unfold apply_slot. cbn [input writes].
    rewrite Ht, !store_unfold. unfold coordinate. rewrite Hlon, Hlat.
    reflexivity.
  - intros a x Hseq Hx.
    destruct (short_point_coordinates _ _ Hseq Hx)
      as (_ & Hl & (lon & Hlon) & Hlat).
    eexists. rewrite reverse_tabular. unfold reverse_params.
    rewrite Hl, Hlon, Hlat. reflexivity.
Qed.








(** X14. A [layers] sequence with an element outside [valid_layers] is
    refused with a [ValueError] and without a request, once the
    statements before its check have passed, in free-text search and in
    reverse geocode. *)
Theorem invalid_layer_is_refused :
  (forall a xs x,
     _is_list (s_layers a) = true -> py_iter (s_layers a) = Ok xs ->
     x ∈ xs -> py_in x valid_layers = false ->
     point_ok (s_focus_point a) = true ->
     coord_ok (s_rect_min_x a) = true -> coord_ok (s_rect_min_y a) = true ->
     coord_ok (s_rect_max_x a) = true -> coord_ok (s_rect_max_y a) = true ->
     point_ok (s_circle_point a) = true ->
     tokens_ok valid_sources (s_sources a) = true ->
     exists msg, pelias_search client a log = (Raise (ValueError msg), log)) /\
  (forall a xs x,
     _is_list (r_layers a) = true -> py_iter (r_layers a) = Ok xs ->
     x ∈ xs -> py_in x valid_layers = false ->
     _is_list (r_point a) = true -> point_reads (r_point a) = true ->
     tokens_ok valid_sources (r_sources a) = true ->
     exists msg, pelias_reverse client a log = (Raise (ValueError msg), log)).
Proof.
  split.
  - intros a xs x Hl Hit Hx Hbad Hfp Hx0 Hy0 Hx1 Hy1 Hcp Hso. eexists.
    eapply (search_rejects_at 8);
      [reflexivity | | exact (nonempty_sequence_truthy _ _ _ Hl Hit Hx)
      | reflexivity | exact (checked_tokens_invalid _ _ _ _ _ _ Hl Hit Hx Hbad)].
    rewrite search_slots_pass. cbn [take forallb id].
    rewrite Hfp, Hx0, Hy0, Hx1, Hy1, Hcp, Hso. reflexivity.
  - intros a xs x Hl Hit Hx Hbad Hpl Hpr Hso. eexists.
    eapply (reverse_rejects_at 2);
      [exact Hpl | exact Hpr | reflexivity |
      | exact (nonempty_sequence_truthy _ _ _ Hl Hit Hx)
      | reflexivity | exact (checked_tokens_invalid _ _ _ _ _ _ Hl Hit Hx Hbad)].
    rewrite reverse_slots_pass. cbn [take forallb id]. rewrite Hso.
    reflexivity.
Qed.

Lemma store_values (P : pyval -> Prop) ws p p' :
  Forall (fun w => forall v, w.2 = Ok v -> P v) ws ->
  store ws p = Ok p' ->
  forall k v, p' !! k = Some v -> P v \/ p !! k = Some v.
Proof.
  intros Hws. revert p. induction Hws as [|[k' e] ws He _ IH]; intros p H k v Hk.
  - injection H as <-. auto.
  - rewrite store_unfold in H. apply bind_ok_inv in H as (w & Hw & H).
    destruct (IH _ H k v Hk) as [?|Hk']; [auto|].
    destruct (decide (k' = k)) as [->|Hne].
    + rewrite lookup_insert_eq in Hk'. injection Hk' as <-.
      left. exact (He w Hw).
    + rewrite lookup_insert_ne in Hk' by exact Hne. auto.
Qed.

(** Every value of the mapping a table builds was there before or was
    computed by a slot whose input is truthy. *)
Lemma build_values (P : pyval -> Prop) slots p p' :
  Forall (fun sl => truthy (input sl) = true ->
            Forall (fun w => forall v, w.2 = Ok v -> P v) (writes sl)) slots ->
  build slots p = Ok p' ->
  forall k v, p' !! k = Some v -> P v \/ p !! k = Some v.
Proof.
  intros Hs. revert p. induction Hs as [|sl slots Hsl _ IH]; intros p H k v Hk.
  - injection H as <-. auto.
  - rewrite build_unfold in H. apply bind_ok_inv in H as (q & Hq & H).
    destruct (IH _ H k v Hk) as [?|Hk']; [auto|].
    unfold apply_slot in Hq. destruct (truthy (input sl)).
    + exact (store_values P _ _ _ (Hsl eq_refl) Hq k v Hk').
    + injection Hq as <-. auto.
Qed.

Lemma checked_tokens_str type_msg fmt valid v w :
  checked_tokens type_msg fmt valid v = Ok w -> exists s, w = PStr s.
Proof.
  unfold checked_tokens. intros H.
  apply bind_ok_inv in H as (_ & _ & H).
  apply bind_ok_inv in H as (xs & _ & H).
  apply bind_ok_inv in H as (_ & _ & H).
  destruct (_comma_list v) as [s|]; [|discriminate].
  injection H as <-. eauto.
Qed.

Ltac not_none Ht :=
  cbn [snd]; intros v Hv v_none; subst v;
  first
    [ discriminate Hv
    | apply coordinate_ok_inv in Hv as (? & _ & ?); discriminate
    | unfold formatted in Hv; destruct (_format_float _); cbn in Hv;
      discriminate Hv
    | apply checked_tokens_str in Hv as (? & ?); discriminate
    | apply checked_str_value in Hv; rewrite <- Hv in Ht; cbn in Ht;
      discriminate Ht
    | injection Hv as Hv; rewrite Hv in Ht; cbn in Ht; discriminate Ht ].

Ltac slots_not_none :=
  repeat (constructor;
          [cbn [input writes]; intros Ht;
           repeat (constructor; [not_none Ht|]); constructor |]);
  constructor.

(** X16. No optional key is ever handed to the client with the value
    [None]: in the two searches only [text], which is sent as given, can
    hold it, and in reverse geocode no key can. *)
Theorem optional_values_are_never_none :
  (forall a c, sends (pelias_search client a) log c ->
     forall k, call_params c !! k = Some PNone -> k = "text") /\
  (forall a c, sends (pelias_structured client a) log c ->
     forall k, call_params c !! k = Some PNone -> k = "text") /\
  (forall a c, sends (pelias_reverse client a) log c ->
     forall k, call_params c !! k <> Some PNone).
Proof.
  split; [|split].
  - intros a c H k Hk. apply search_sends in H as (H & _).
    assert (Forall (fun sl => truthy (input sl) = true ->
              Forall (fun w => forall v, w.2 = Ok v -> v <> PNone)
                (writes sl)) (search_table a)) as Hs.
    { unfold search_table, checked_sources, checked_layers. slots_not_none. }
    destruct (build_values _ _ _ _ Hs H k _ Hk) as [Hv|Hv]; [congruence|].
    apply (singleton_is_Some "text" k (s_text a)). eauto.
  - intros a c H k Hk. apply structured_sends in H as (H & _).
    assert (Forall (fun sl => truthy (input sl) = true ->
              Forall (fun w => forall v, w.2 = Ok v -> v <> PNone)
                (writes sl)) (structured_table a)) as Hs.
    { unfold structured_table. slots_not_none. }
    destruct (build_values _ _ _ _ Hs H k _ Hk) as [Hv|Hv]; [congruence|].
    apply (singleton_is_Some "text" k (t_text a)). eauto.
  - intros a c H k Hk. apply reverse_sends in H as (H & _).
    apply reverse_params_inv in H as (_ & lon & lat & _ & _ & H).
    assert (Forall (fun sl => truthy (input sl) = true ->
              Forall (fun w => forall v, w.2 = Ok v -> v <> PNone)
                (writes sl)) (reverse_table a)) as Hs.
    { unfold reverse_table, checked_sources, checked_layers. slots_not_none. }
    destruct (build_values _ _ _ _ Hs H k _ Hk) as [Hv|Hv]; [congruence|].
    destruct (decide ("point.lat" = k)) as [<-|Hne].
    + rewrite lookup_insert_eq in Hv. discriminate.
    + rewrite lookup_insert_ne in Hv by exact Hne.
      destruct (decide ("point.lon" = k)) as [<-|Hne'].
      * rewrite lookup_insert_eq in Hv. discriminate.
      * rewrite lookup_insert_ne, lookup_empty in Hv by exact Hne'.
        discriminate.
Qed.

End Coverage.

End Properties.

(** ** Concrete runs *)

Section ConcreteRuns.

Existing Instance model_runtime.

(** C1, as stated, fails: an empty [text] is falsy and its key is sent
    all the same, with the empty value. *)
Lemma C1_falsy_text_is_sent :
  ~ (forall (client : Client) (a : search_args) (log : list call) (c : call),
       sends (pelias_search client a) log c ->
       forall k, is_Some (call_params c !! k) ->
         exists x, (k, x) ∈ ("text", s_text a) :: search_inputs a /\
                   truthy x = true).
Proof.
  intros H.
  destruct (H null_client (search_only (PStr "") PNone) []
              (Call "/geocode/search" {[ "text" := PStr "" ]} PNone)
              eq_refl "text") as (x & Hin & Hx).
  - cbn [call_params]. rewrite singleton_is_Some. reflexivity.
  - unfold search_inputs in Hin. cbv [search_only s_text s_focus_point
      s_rect_min_x s_rect_min_y s_rect_max_x s_rect_max_y s_circle_point
      s_circle_radius s_sources s_layers s_country s_size] in Hin.
    each_input Hin.
Qed.

(** C3. With the three rectangle bounds 1.5, 2.5 and 3.5, the keys that
    are sent end with a tab; boundary.rect.min_lon, boundary.rect.min_lat
    and boundary.rect.max_lon themselves are not in the mapping. *)
Theorem C3_rect_keys_end_with_a_tab :
  let a := SearchArgs (PStr "Heidelberg") PNone (PFloat 15 1) (PFloat 25 1)
             (PFloat 35 1) PNone PNone PNone PNone PNone PNone PNone PNone in
  exists p,
    pelias_search null_client a [] =
    (Ok PNone, [Call "/geocode/search" p PNone]) /\
    p !! "boundary.rect.min_lon" = None /\
    p !! "boundary.rect.min_lat" = None /\
    p !! "boundary.rect.max_lon" = None /\
    p !! ("boundary.rect.min_lon" +:+ TAB) = Some (PStr "1.5") /\
    p !! ("boundary.rect.min_lat" +:+ TAB) = Some (PStr "2.5") /\
    p !! ("boundary.rect.max_lon" +:+ TAB) = Some (PStr "3.5").
Proof.
  intros a. eexists. split; [vm_compute; reflexivity|].
  vm_compute. repeat split.
Qed.

(** C4. A [focus_point] and a [circle_point] that are dicts, not
    sequences, raise nothing in free-text search: their entries 0 and 1
    are formatted and the request is made. *)
Theorem C4_search_accepts_points_that_are_not_sequences :
  let pt := PDict [(PInt 0, PFloat 834 2); (PInt 1, PFloat 4823 2)] in
  let a := SearchArgs (PStr "Heidelberg") pt PNone PNone PNone PNone pt
             PNone PNone PNone PNone PNone PNone in
  _is_list pt = false /\
  exists p,
    pelias_search null_client a [] =
    (Ok PNone, [Call "/geocode/search" p PNone]) /\
    p !! "focus.point.lon" = Some (PStr "8.34") /\
    p !! "focus.point.lat" = Some (PStr "48.23") /\
    p !! "boundary.circle.lon" = Some (PStr "8.34") /\
    p !! "boundary.circle.lat" = Some (PStr "48.23").
Proof.
  intros pt a. split; [reflexivity|].
  eexists. split; [vm_compute; reflexivity|].
  vm_compute. repeat split.
Qed.

(** C5. A layer outside the enumeration is refused, in both operations,
    with a message that names the source, does not mention the layers
    and lists none of the valid ones. *)
Theorem C5_layers_error_lists_no_layer :
  let msg := "Source must be one or more of " in
  pelias_search null_client
    (SearchArgs (PStr "Heidelberg") PNone PNone PNone PNone PNone PNone
       PNone PNone (PList [PStr "planet"]) PNone PNone PNone) [] =
  (Raise (ValueError msg), []) /\
  pelias_reverse null_client
    (ReverseArgs (PTuple [PFloat 834 2; PFloat 4823 2]) PNone PNone
       (PList [PStr "planet"]) PNone PNone PNone) [] =
  (Raise (ValueError msg), []) /\
  forallb (fun layer => negb (contains layer msg)) valid_layers = true /\
  contains "layer" msg = false /\ contains "Layer" msg = false.
Proof. vm_compute. repeat split. Qed.

Lemma C1_optional_keys_witness :
  let a := SearchArgs (PStr "Heidelberg") PNone PNone PNone PNone PNone PNone
             PNone PNone PNone PNone (PInt 5) PNone in
  let c := Call "/geocode/search"
             {[ "text" := PStr "Heidelberg"; "size" := PInt 5 ]} PNone in
  sends (pelias_search null_client a) [] c /\
  forall k, is_Some (call_params c !! k) <->
    k = "text" \/ exists x, (k, x) ∈ search_inputs a /\ truthy x = true.
Proof.
  intros a c.
  assert (sends (pelias_search null_client a) [] c) as Hs
    by (vm_compute; reflexivity).
  split; [exact Hs|].
  exact (proj1 (C1_optional_keys_follow_truthy_inputs null_client [])
           a c Hs).
Defined.

Lemma C2_rect_max_witness :
  let a := SearchArgs (PStr "Heidelberg") PNone PNone PNone (PFloat 35 1)
             (PFloat 45 1) PNone PNone PNone PNone PNone PNone PNone in
  search_accepts a = true /\
  exists c,
    pelias_search null_client a [] =
    (client_request null_client [] c, [] ++ [c]) /\
    (truthy (s_rect_max_y a) = true ->
       exists v, _format_float (s_rect_max_y a) = Ok v /\
         call_params c !! ("boundary.rect.max_lon" +:+ TAB) = Some (PStr v)) /\
    (truthy (s_rect_max_y a) = false -> truthy (s_rect_max_x a) = true ->
       exists v, _format_float (s_rect_max_x a) = Ok v /\
         call_params c !! ("boundary.rect.max_lon" +:+ TAB) = Some (PStr v)) /\
    (forall k, is_Some (call_params c !! k) -> contains "max" k = true ->
       k = "boundary.rect.max_lon" +:+ TAB).
Proof.
  intros a. split; [reflexivity|].
  apply (C2_rect_max_y_shares_the_max_lon_key null_client [] a).
  reflexivity.
Defined.

Lemma C6_refused_witness :
  let a := SearchArgs (PStr "Heidelberg") PNone PNone PNone PNone PNone PNone
             PNone PNone PNone (PInt 49) PNone PNone in
  search_accepts a = false /\
  exists e, pelias_search null_client a [] = (Raise e, []).
Proof.
  intros a. split; [reflexivity|].
  apply (proj1 (C6_no_request_on_invalid_arguments null_client [])).
  reflexivity.
Defined.

Lemma C7_reverse_witness :
  let point := PList [PInt 8; PInt 48] in
  _is_list point = true /\
  getitem point 0 ≫= _format_float = Ok "8" /\
  getitem point 1 ≫= _format_float = Ok "48" /\
  pelias_reverse null_client (reverse_only point PNone) [] =
  (let c := Call "/geocode/reverse"
              {[ "point.lon" := PStr "8"; "point.lat" := PStr "48" ]} PNone in
   (client_request null_client [] c, [] ++ [c])).
Proof.
  intros point. split; [reflexivity|]. split; [reflexivity|].
  split; [reflexivity|].
  apply (proj1 (proj2 (proj2
           (C7_required_keys_and_paths null_client []))));
    reflexivity.
Defined.

Lemma C8_sources_witness :
  let a := SearchArgs (PStr "Heidelberg") PNone PNone PNone PNone PNone PNone
             PNone (PList [PStr "osm"; PStr "gn"]) PNone PNone PNone PNone in
  _is_list (s_sources a) = true /\
  py_iter (s_sources a) = Ok (PStr <$> ["osm"; "gn"]) /\
  Forall (fun t => t ∈ valid_sources) ["osm"; "gn"] /\
  search_accepts a = true /\
  exists c,
    pelias_search null_client a [] =
    (client_request null_client [] c, [] ++ [c]) /\
    call_params c !! "sources" =
    if truthy (s_sources a) then Some (PStr (join "," ["osm"; "gn"]))
    else None.
Proof.
  intros a.
  assert (Forall (fun t => t ∈ valid_sources) ["osm"; "gn"]) as Hv.
  { repeat constructor. }
  split; [reflexivity|]. split; [reflexivity|]. split; [exact Hv|].
  split; [reflexivity|].
  exact (proj1 (C8_sources_joined_or_refused null_client [])
           a ["osm"; "gn"] eq_refl eq_refl Hv eq_refl).
Defined.

Lemma C9_text_witness :
  let a := SearchArgs (PStr "Heidelberg") PNone PNone PNone PNone PNone PNone
             PNone PNone PNone (PInt 49) PNone PNone in
  let e := TypeError "Country must be a string." in
  let b := SearchArgs (PStr "Heidelberg") PNone PNone PNone PNone PNone PNone
             PNone PNone PNone (PStr "DE") (PInt 5) PNone in
  let t := PList [PInt 7; PNone] in
  let s := StructuredArgs (PStr "Heidelberg") PNone PNone PNone
             (PStr "Heidelberg") PNone PNone PNone PNone PNone in
  (pelias_search null_client a [] = (Raise e, []) /\
   pelias_search null_client (search_with_text (PInt 7) a) [] =
   (Raise e, [])) /\
  (search_accepts b = true /\
   exists c,
     pelias_search null_client (search_with_text t b) [] =
     (client_request null_client [] c, [] ++ [c]) /\
     call_params c !! "text" = Some t) /\
  (structured_accepts s = true /\
   exists c,
     pelias_structured null_client (structured_with_text (PInt 7) s) [] =
     (client_request null_client [] c, [] ++ [c]) /\
     call_params c !! "text" = Some (PInt 7)).
Proof.
  intros a e b t s.
  assert (pelias_search null_client a [] = (Raise e, [])) as H
    by reflexivity.
  destruct (C9_text_is_not_validated null_client [])
    as (Hraise & _ & _ & _ & _ & _ & Hsearch & Hstructured).
  split; [split; [exact H | exact (Hraise a (PInt 7) e H)]|].
  split; (split; [reflexivity|]).
  - exact (Hsearch b t eq_refl).
  - exact (Hstructured s (PInt 7) eq_refl).
Defined.

Lemma C10_radius_witness :
  let a := ReverseArgs (PTuple [PFloat 834 2; PFloat 4823 2]) (PInt 5) PNone
             PNone PNone PNone PNone in
  reverse_accepts a = true /\ truthy (r_circle_radius a) = true /\
  exists c,
    pelias_reverse null_client a [] =
    (client_request null_client [] c, [] ++ [c]) /\
    call_params c !! "boundary.circle.radius" =
    Some (PStr (py_str (r_circle_radius a))).
Proof.
  intros a. split; [reflexivity|]. split; [reflexivity|].
  apply (proj1 (C10_circle_radius_str_or_raw null_client []) a);
    reflexivity.
Defined.

Lemma call_path_witness :
  let a := search_only (PStr "Heidelberg") (PBool true) in
  let c := Call "/geocode/search" {[ "text" := PStr "Heidelberg" ]}
             (PBool true) in
  sends (pelias_search null_client a) [] c /\
  call_path c = "/geocode/search" /\ call_dry_run c = s_dry_run a /\
  pelias_search null_client a [] = (client_request null_client [] c, [] ++ [c]).
Proof.
  intros a c.
  assert (sends (pelias_search null_client a) [] c) as Hs by reflexivity.
  split; [exact Hs|].
  exact (proj1 (call_path_dry_run_and_result null_client []) a c Hs).
Defined.

Lemma outcome_independent_witness :
  let a := search_only (PStr "Heidelberg") PNone in
  let c := Call "/geocode/search" {[ "text" := PStr "Heidelberg" ]} PNone in
  let busy := {| client_request := fun log _ => Ok (PInt (Z.of_nat (length log))) |} in
  sends (pelias_search null_client a) [] c /\
  sends (pelias_search busy a) [c; c] c.
Proof.
  intros a c busy.
  assert (sends (pelias_search null_client a) [] c) as Hs by reflexivity.
  split; [exact Hs|].
  exact (proj1 (outcome_independent_of_client_and_history
                  null_client busy [] [c; c]) a c Hs).
Defined.

Lemma reverse_point_witness :
  let a := ReverseArgs (PTuple [PFloat 834 2; PFloat 4823 2]) (PInt 5) PNone
             PNone (PStr "DE") PNone PNone in
  let c := Call "/geocode/reverse"
             {[ "point.lon" := PStr "8.34"; "point.lat" := PStr "48.23";
                "boundary.circle.radius" := PStr "5";
                "country" := PStr "DE" ]} PNone in
  sends (pelias_reverse null_client a) [] c /\
  _is_list (r_point a) = true /\
  exists lon lat,
    getitem (r_point a) 0 ≫= _format_float = Ok lon /\
    getitem (r_point a) 1 ≫= _format_float = Ok lat /\
    call_params c !! "point.lon" = Some (PStr lon) /\
    call_params c !! "point.lat" = Some (PStr lat).
Proof.
  intros a c.
  assert (sends (pelias_reverse null_client a) [] c) as Hs
    by (vm_compute; reflexivity).
  split; [exact Hs|].
  exact (reverse_sends_the_formatted_point null_client [] a c Hs).
Defined.

Lemma layers_joined_witness :
  let a := SearchArgs (PStr "Heidelberg") PNone PNone PNone PNone PNone PNone
             PNone PNone (PTuple [PStr "county"; PStr "venue"]) PNone PNone
             PNone in
  _is_list (s_layers a) = true /\
  py_iter (s_layers a) = Ok (PStr <$> ["county"; "venue"]) /\
  search_accepts a = true /\
  exists c,
    pelias_search null_client a [] =
    (client_request null_client [] c, [] ++ [c]) /\
    call_params c !! "layers" =
    if truthy (s_layers a) then Some (PStr (join "," ["county"; "venue"]))
    else None.
Proof.
  intros a. split; [reflexivity|]. split; [reflexivity|].
  split; [reflexivity|].
  exact (proj1 (layers_joined_in_order null_client [])
           a ["county"; "venue"] eq_refl eq_refl eq_refl).
Defined.

Lemma bare_string_sources_witness :
  let a := SearchArgs (PStr "Heidelberg") PNone PNone PNone PNone PNone PNone
             PNone (PStr "osm") PNone PNone PNone PNone in
  truthy (s_sources a) = true /\ _is_list (s_sources a) = false /\
  pelias_search null_client a [] =
  (Raise (TypeError "Data source invalid."), []).
Proof.
  intros a. split; [reflexivity|]. split; [reflexivity|].
  apply (proj1 (token_arguments_must_be_sequences null_client []) a);
    reflexivity.
Defined.

Lemma country_witness :
  let a := ReverseArgs (PTuple [PFloat 834 2; PFloat 4823 2]) PNone PNone
             PNone (PList [PStr "DE"]) PNone PNone in
  truthy (r_country a) = true /\ isinstance_str (r_country a) = false /\
  pelias_reverse null_client a [] =
  (Raise (TypeError "Country must be a string."), []).
Proof.
  intros a. split; [reflexivity|]. split; [reflexivity|].
  apply (proj1 (proj2 (country_is_a_string_sent_as_given null_client [])) a);
    reflexivity.
Defined.

Lemma size_witness :
  let a := SearchArgs (PStr "Heidelberg") PNone PNone PNone PNone PNone PNone
             PNone PNone PNone PNone (PStr "many") PNone in
  let c := Call "/geocode/search"
             {[ "text" := PStr "Heidelberg"; "size" := PStr "many" ]} PNone in
  sends (pelias_search null_client a) [] c /\
  truthy (s_size a) = true /\
  call_params c !! "size" = Some (s_size a).
Proof.
  intros a c.
  assert (sends (pelias_search null_client a) [] c) as Hs
    by (vm_compute; reflexivity).
  split; [exact Hs|]. split; [reflexivity|].
  exact (proj1 (size_is_sent_as_given null_client []) a c Hs eq_refl).
Defined.

Lemma search_coordinates_witness :
  let a := SearchArgs (PStr "Heidelberg")
             (PTuple [PFloat 834234 5; PFloat 4823424 5]) PNone PNone PNone
             PNone PNone PNone PNone PNone PNone PNone PNone in
  let c := Call "/geocode/search"
             {[ "text" := PStr "Heidelberg";
                "focus.point.lon" := PStr "8.34234";
                "focus.point.lat" := PStr "48.23424" ]} PNone in
  sends (pelias_search null_client a) [] c /\
  truthy (s_focus_point a) = true /\
  exists lon lat,
    getitem (s_focus_point a) 0 ≫= _format_float = Ok lon /\
    getitem (s_focus_point a) 1 ≫= _format_float = Ok lat /\
    call_params c !! "focus.point.lon" = Some (PStr lon) /\
    call_params c !! "focus.point.lat" = Some (PStr lat).
Proof.
  intros a c.
  assert (sends (pelias_search null_client a) [] c) as Hs
    by (vm_compute; reflexivity).
  split; [exact Hs|]. split; [reflexivity|].
  exact (proj1 (search_coordinates_are_formatted null_client [] a c Hs)
           eq_refl).
Defined.

Lemma structured_fields_witness :
  let a := StructuredArgs (PStr "Heidelberg") PNone PNone PNone
             (PStr "Heidelberg") PNone PNone (PStr "69117") PNone PNone in
  let c := Call "/geocode/search/structured"
             {[ "text" := PStr "Heidelberg"; "locality" := PStr "Heidelberg";
                "postalcode" := PStr "69117" ]} PNone in
  sends (pelias_structured null_client a) [] c /\
  ("postalcode", "Postalcode must be a string.", PStr "69117")
    ∈ structured_fields a /\
  truthy (PStr "69117") = true /\
  isinstance_str (PStr "69117") = true /\
  call_params c !! "postalcode" = Some (PStr "69117").
Proof.
  intros a c.
  assert (sends (pelias_structured null_client a) [] c) as Hs
    by (vm_compute; reflexivity).
  assert (("postalcode", "Postalcode must be a string.", PStr "69117")
            ∈ structured_fields a) as Hin.
  { apply list_elem_of_In. cbn. tauto. }
  split; [exact Hs|]. split; [exact Hin|]. split; [reflexivity|].
  exact (structured_fields_are_sent_as_given null_client [] a c Hs
           _ _ _ Hin eq_refl).
Defined.

Lemma structured_bad_field_witness :
  let a := StructuredArgs (PStr "Heidelberg") (PInt 42) PNone PNone PNone
             PNone PNone PNone PNone PNone in
  structured_fields a !! 0%nat =
    Some ("address", "Address must be a string.", PInt 42) /\
  pelias_structured null_client a [] =
  (Raise (TypeError "Address must be a string."), []).
Proof.
  intros a. split; [reflexivity|].
  apply (structured_first_bad_field_is_reported null_client [] a 0
           "address" "Address must be a string." (PInt 42));
    reflexivity.
Defined.

Lemma falsy_arguments_witness :
  let a := SearchArgs (PStr "Heidelberg") (PList []) (PInt 0) (PFloat 0 1)
             PNone PNone (PTuple []) (PInt 0) (PStr "") (PDict [])
             (PInt 0) (PBool false) PNone in
  forallb (fun kx => negb (truthy kx.2)) (search_inputs a) = true /\
  pelias_search null_client a [] =
  pelias_search null_client (search_only (s_text a) (s_dry_run a)) [].
Proof.
  intros a. split; [reflexivity|].
  apply (proj1 (falsy_arguments_are_ignored null_client []) a).
  reflexivity.
Defined.

Lemma short_point_witness :
  let a := ReverseArgs (PList [PFloat 834 2]) PNone PNone PNone PNone PNone
             PNone in
  is_ok (_format_float (PFloat 834 2)) = true /\
  exists msg,
    pelias_reverse null_client a [] = (Raise (IndexError msg), []).
Proof.
  intros a. split; [reflexivity|].
  apply (proj2 (proj2 (point_subscript_errors_propagate null_client []))
           a (PFloat 834 2)); [left|]; reflexivity.
Defined.

Lemma invalid_layer_witness :
  let a := ReverseArgs (PTuple [PFloat 834 2; PFloat 4823 2]) PNone PNone
             (PList [PStr "venue"; PStr "planet"]) PNone PNone PNone in
  PStr "planet" ∈ [PStr "venue"; PStr "planet"] /\
  py_in (PStr "planet") valid_layers = false /\
  exists msg,
    pelias_reverse null_client a [] = (Raise (ValueError msg), []).
Proof.
  intros a.
  assert (PStr "planet" ∈ [PStr "venue"; PStr "planet"]) as Hin.
  { apply list_elem_of_In. cbn. tauto. }
  split; [exact Hin|]. split; [reflexivity|].
  apply (proj2 (invalid_layer_is_refused null_client []) a
           [PStr "venue"; PStr "planet"] (PStr "planet"));
    first [exact Hin | reflexivity].
Defined.

Lemma reverse_point_not_list_witness :
  let a := ReverseArgs (PStr "8.34,48.23") PNone PNone
             (PList [PStr "planet"]) (PInt 1) PNone PNone in
  _is_list (r_point a) = false /\
  pelias_reverse null_client a [] =
  (Raise (TypeError "Point must be a list/tuple of coordinates."), []).
Proof.
  intros a. split; [reflexivity|].
  apply (reverse_point_not_list null_client a []). reflexivity.
Defined.

Lemma never_none_witness :
  let a := search_only PNone PNone in
  let c := Call "/geocode/search" {[ "text" := PNone ]} PNone in
  sends (pelias_search null_client a) [] c /\
  call_params c !! "text" = Some PNone /\
  "text" = "text".
Proof.
  intros a c.
  assert (sends (pelias_search null_client a) [] c) as Hs by reflexivity.
  assert (call_params c !! "text" = Some PNone) as Hk
    by apply lookup_singleton_eq.
  split; [exact Hs|]. split; [exact Hk|].
  exact (proj1 (optional_values_are_never_none null_client [])
           a c Hs "text" Hk).
Defined.

End ConcreteRuns.
